(** * CodeRefine AI Engine: the request/response relay of [Backend/main.py]

    A shallow embedding of the two FastAPI handlers [review_code] and
    [translate_code], of the module initialisation that reads the API key,
    and of the parts of the Python runtime they rest on (JSON values as
    [json.loads] returns them, [dict.get], item assignment, [int()],
    [try]/[except]), followed by the properties of the relay. *)

From Stdlib Require Import ZArith List Ascii String DecimalString SpecFloat Lia.
From stdpp Require Import base option gmap strings.
Import ListNotations.

Set Warnings "-register-all".
Local Open Scope string_scope.
Local Open Scope Z_scope.

(** ** Python values *)

Module Py.

(** A Python [str] is modelled by a Rocq [string] read as a sequence of
    code points, all of them below 256.  The literals of the source are
    ASCII. *)

Definition chr (n : nat) : string := String (ascii_of_nat n) EmptyString.

(** The characters a Rocq string literal cannot hold, or holds unreadably. *)
Definition nl : string := chr 10.
Definition dq : string := chr 34.

(** The values [json.loads] can return: [None], [bool], [int] (unbounded),
    [float] (IEEE 754 binary64, with the non-standard [NaN] and
    [Infinity] literals Python's decoder accepts), [str], [list] and a
    [dict] with [str] keys, kept in insertion order. *)
Inductive json : Type :=
| JNull
| JBool (b : bool)
| JInt (z : Z)
| JFloat (f : spec_float)
| JStr (s : string)
| JList (l : list json)
| JDict (d : list (string * json)).

(** [type(v).__name__] *)
Definition type_name (v : json) : string :=
  match v with
  | JNull => "NoneType"
  | JBool _ => "bool"
  | JInt _ => "int"
  | JFloat _ => "float"
  | JStr _ => "str"
  | JList _ => "list"
  | JDict _ => "dict"
  end.

(** Exceptions.  Every exception of this development is an instance of
    [Exception]: the control signals outside that class (task
    cancellation, interpreter exit) end the request as a whole and are
    not failures of the relay. *)
Inductive exn : Type :=
| HTTPException (status_code : Z) (detail : string)
| Exc (cls : string) (msg : string).

Definition string_of_Z (z : Z) : string := NilZero.string_of_int (Z.to_int z).

(** [str(e)]; Starlette prints an [HTTPException] as its status and detail. *)
Definition exn_str (e : exn) : string :=
  match e with
  | HTTPException st d => string_of_Z st +:+ ": " +:+ d
  | Exc _ m => m
  end.

Inductive outcome (A : Type) : Type :=
| Return (a : A)
| Raise (e : exn).
Arguments Return {A} a.
Arguments Raise {A} e.

(** Sequencing of two steps that may raise. *)
Definition and_then {A B} (o : outcome A) (k : A -> outcome B) : outcome B :=
  match o with
  | Return a => k a
  | Raise e => Raise e
  end.

(** *** Dictionaries *)

Fixpoint assoc_get (d : list (string * json)) (k : string) : option json :=
  match d with
  | [] => None
  | (k', v) :: d' => if String.eqb k' k then Some v else assoc_get d' k
  end.

(** Assignment to a key keeps the position of a key already there and
    appends a new one. *)
Fixpoint assoc_set (d : list (string * json)) (k : string) (v : json)
  : list (string * json) :=
  match d with
  | [] => [(k, v)]
  | (k', v') :: d' =>
      if String.eqb k' k then (k', v) :: d' else (k', v') :: assoc_set d' k v
  end.

(** The value under a key of a JSON object, if it is one and has the key. *)
Definition member (obj : json) (key : string) : option json :=
  match obj with
  | JDict d => assoc_get d key
  | _ => None
  end.

(** [obj.get(key, default)]: only a [dict] has the method. *)
Definition get (obj : json) (key : string) (default : json) : outcome json :=
  match obj with
  | JDict d => Return (match assoc_get d key with Some v => v | None => default end)
  | _ => Raise (Exc "AttributeError"
                  ("'" +:+ type_name obj +:+ "' object has no attribute 'get'"))
  end.

(** [obj[key] = value] with a [str] key; the updated object is returned. *)
Definition setitem (obj : json) (key : string) (value : json) : outcome json :=
  match obj with
  | JDict d => Return (JDict (assoc_set d key value))
  | JList _ => Raise (Exc "TypeError" "list indices must be integers or slices, not str")
  | _ => Raise (Exc "TypeError"
                  ("'" +:+ type_name obj +:+ "' object does not support item assignment"))
  end.

(** *** [repr] of a [str] *)

(** [ord(c)] *)
Definition ord (c : ascii) : Z := Z.of_nat (nat_of_ascii c).

Fixpoint occurs (c : ascii) (s : string) : bool :=
  match s with
  | EmptyString => false
  | String c' s' => Ascii.eqb c' c || occurs c s'
  end.

Definition hex_digit (n : Z) : string :=
  String.substring (Z.to_nat n) 1 "0123456789abcdef".

(** [str.isprintable] on the code points below 256. *)
Definition printable (c : ascii) : bool :=
  let n := ord c in
  ((32 <=? n) && (n <=? 126)) || ((161 <=? n) && negb (n =? 173)).

Definition repr_char (quote c : ascii) : string :=
  let n := ord c in
  if n =? 92 then "\\"
  else if Ascii.eqb c quote then "\" +:+ String c EmptyString
  else if n =? 9 then "\t"
  else if n =? 10 then "\n"
  else if n =? 13 then "\r"
  else if printable c then String c EmptyString
  else "\x" +:+ hex_digit (n / 16) +:+ hex_digit (n mod 16).

Fixpoint repr_body (quote : ascii) (s : string) : string :=
  match s with
  | EmptyString => EmptyString
  | String c s' => repr_char quote c +:+ repr_body quote s'
  end.

(** Single quotes, unless the text holds one and no double quote. *)
Definition repr (s : string) : string :=
  let quote :=
    if occurs "'"%char s && negb (occurs (ascii_of_nat 34) s)
    then ascii_of_nat 34 else "'"%char in
  String quote (repr_body quote s +:+ String quote EmptyString).

(** *** [int(x)] *)

Definition is_digit (c : ascii) : bool := (48 <=? ord c) && (ord c <=? 57).

(** The white space [int] skips around a literal. *)
Definition is_space (c : ascii) : bool :=
  let n := ord c in
  ((9 <=? n) && (n <=? 13)) || (n =? 32) || (n =? 133) || (n =? 160).

Fixpoint lstrip (s : string) : string :=
  match s with
  | String c s' => if is_space c then lstrip s' else s
  | EmptyString => EmptyString
  end.

(** The run of digits, single underscores allowed between two of them:
    its value, its number of digits and what follows it; [None] on a
    doubled or trailing underscore. *)
Fixpoint scan_digits (s : string) (after_underscore : bool) (acc digits : Z)
  : option (Z * Z * string) :=
  match s with
  | EmptyString => if after_underscore then None else Some (acc, digits, s)
  | String c s' =>
      if is_digit c then scan_digits s' false (10 * acc + (ord c - 48)) (digits + 1)
      else if Ascii.eqb c "_"%char then
        if after_underscore then None else scan_digits s' true acc digits
      else if after_underscore then None else Some (acc, digits, s)
  end.

(** [sys.get_int_max_str_digits()], at its default. *)
Definition max_str_digits : Z := 4300.

Definition invalid_literal (s : string) : exn :=
  Exc "ValueError"
    ("invalid literal for int() with base 10: " +:+ String.substring 0 200 (repr s)).

Definition int_of_str (s : string) : outcome Z :=
  let t := lstrip s in
  let '(negative, t) :=
    match t with
    | String "-"%char t' => (true, t')
    | String "+"%char t' => (false, t')
    | _ => (false, t)
    end in
  match t with
  | String "_"%char _ => Raise (invalid_literal s)
  | _ =>
      match scan_digits t false 0 0 with
      | None => Raise (invalid_literal s)
      | Some (value, digits, rest) =>
          if max_str_digits <? digits then
            Raise (Exc "ValueError"
                     ("Exceeds the limit (" +:+ string_of_Z max_str_digits
                      +:+ " digits) for integer string conversion: value has "
                      +:+ string_of_Z digits
                      +:+ " digits; use sys.set_int_max_str_digits() to increase the limit"))
          else if digits =? 0 then Raise (invalid_literal s)
          else
            match lstrip rest with
            | EmptyString => Return (if negative then - value else value)
            | _ => Raise (invalid_literal s)
            end
      end
  end.

(** A [float] is truncated towards zero; the non-finite ones have no
    integer. *)
Definition int_of_float (f : spec_float) : outcome Z :=
  match f with
  | S754_zero _ => Return 0
  | S754_infinity _ => Raise (Exc "OverflowError" "cannot convert float infinity to integer")
  | S754_nan => Raise (Exc "ValueError" "cannot convert float NaN to integer")
  | S754_finite s m e =>
      let magnitude := Z.shiftl (Z.pos m) e in
      Return (if s then - magnitude else magnitude)
  end.

(** The decimal numeral with the given digits, the most significant
    first, and the number it writes. *)
Definition digit_char (d : Z) : ascii := ascii_of_nat (Z.to_nat (48 + d)).

Fixpoint numeral (ds : list Z) : string :=
  match ds with
  | [] => EmptyString
  | d :: ds' => String (digit_char d) (numeral ds')
  end.

Definition numeral_value (ds : list Z) : Z :=
  fold_left (fun acc d => 10 * acc + d) ds 0.

(** The [float] literal [0.1]: the binary64 number
    7205759403792794 * 2^-56, the nearest there is to one tenth. *)
Definition float_0_1 : spec_float := S754_finite false 7205759403792794 (-56).

Definition int (x : json) : outcome Z :=
  match x with
  | JInt z => Return z
  | JBool b => Return (if b then 1 else 0)
  | JFloat f => int_of_float f
  | JStr s => int_of_str s
  | _ => Raise (Exc "TypeError"
                  ("int() argument must be a string, a bytes-like object or a real number, not '"
                   +:+ type_name x +:+ "'"))
  end.

End Py.

(** ** The chat-completion client *)

Module Groq.
Import Py.

(** [AsyncClient(api_key=...)] *)
Record AsyncClient : Type := { api_key : string }.

(** The keyword arguments of [client.chat.completions.create]. *)
Record create_args : Type := {
  messages : list json;
  model : string;
  temperature : spec_float;
  response_format : json
}.

(** The part of a completion the handlers read:
    [response.choices[0].message.content], a [str] or [None]. *)
Record ChatCompletionMessage : Type := { content : option string }.
Record Choice : Type := { message : ChatCompletionMessage }.
Record ChatCompletion : Type := { choices : list Choice }.

End Groq.

(** ** Handlers run in a monad of exceptions over a trace of effects *)

Module Run.
Import Py Groq.

(** What a handler does to the outside world: a call of the completion
    service through a client, and a line printed on the server's output. *)
Inductive event : Type :=
| EvCreate (client : AsyncClient) (args : create_args)
| EvPrint (line : string).

Definition M (A : Type) : Type := list event -> outcome A * list event.

Definition ret {A} (a : A) : M A := fun t => (Return a, t).
Definition raise {A} (e : exn) : M A := fun t => (Raise e, t).
Definition lift {A} (o : outcome A) : M A := fun t => (o, t).

Definition bind {A B} (m : M A) (k : A -> M B) : M B :=
  fun t =>
    match m t with
    | (Return a, t') => k a t'
    | (Raise e, t') => (Raise e, t')
    end.

(** [try: body  except Exception as e: handler] *)
Definition try_except {A} (body : M A) (handler : exn -> M A) : M A :=
  fun t =>
    match body t with
    | (Return a, t') => (Return a, t')
    | (Raise e, t') => handler e t'
    end.

Definition print (line : string) : M unit :=
  fun t => (Return tt, (t ++ [EvPrint line])%list).

End Run.

Notation "x <- m ;; k" := (Run.bind m (fun x => k))
  (at level 100, m at next level, right associativity).
Notation "'run' m ;; k" := (Run.bind m (fun _ => k))
  (at level 100, m at next level, right associativity).

(** ** What the framework does around a handler *)

(** FastAPI with pydantic 2: a request body is validated against the
    model the handler's parameter is annotated with, and a failure is
    answered with status 422 before the handler is called; the handler's
    return value is validated against the route's [response_model], if
    it declares one, and rendered as the JSON body of a 200 response; an
    [HTTPException] raised by the handler becomes a response of its
    status, and any other failure an internal server error. *)

Module FastAPI.
Import Py Run.

(** The annotations the models of this application use. *)
Inductive field_type : Type :=
| TInt      (* int *)
| TStr      (* str *)
| TListStr. (* list[str] *)

(** A [BaseModel] subclass: its required fields, in declaration order. *)
Definition base_model : Type := list (string * field_type).

Inductive validation_error : Type :=
| Missing (field : string)
| WrongType (field : string)
| NotAnObject.

Definition is_str (v : json) : bool :=
  match v with JStr _ => true | _ => false end.

(** Validation of a decoded JSON value against an annotation.  An [int]
    field takes an [int]; pydantic's conversions of other inputs to [int]
    are never exercised here: no request model has an [int] field, and
    the handler leaves an [int] in each [int] field of its response. *)
Definition validate_value (t : field_type) (v : json) : bool :=
  match t, v with
  | TInt, JInt _ => true
  | TStr, JStr _ => true
  | TListStr, JList l => forallb is_str l
  | _, _ => false
  end.

(** Every field is checked and every error reported; keys that are no
    field of the model are ignored. *)
Fixpoint validate_fields (fields : base_model) (d : list (string * json))
  : list validation_error * list (string * json) :=
  match fields with
  | [] => ([], [])
  | (name, t) :: fields' =>
      let '(errors, values) := validate_fields fields' d in
      match assoc_get d name with
      | None => (Missing name :: errors, values)
      | Some v =>
          if validate_value t v then (errors, (name, v) :: values)
          else (WrongType name :: errors, values)
      end
  end.

Definition validate (m : base_model) (v : json)
  : list validation_error + list (string * json) :=
  match v with
  | JDict d =>
      match validate_fields m d with
      | ([], values) => inr values
      | (errors, _) => inl errors
      end
  | _ => inl [NotAnObject]
  end.

(** A required [str] field of a request body. *)
Definition str_field (d : list (string * json)) (name : string)
  : validation_error + string :=
  match assoc_get d name with
  | None => inl (Missing name)
  | Some (JStr s) => inr s
  | Some _ => inl (WrongType name)
  end.

Definition is_finite (f : spec_float) : bool :=
  match f with
  | S754_zero _ | S754_finite _ _ _ => true
  | S754_infinity _ | S754_nan => false
  end.

(** What [JSONResponse] can render: it refuses the floats JSON has no
    notation for ([allow_nan=False]). *)
Fixpoint json_compliant (v : json) : bool :=
  match v with
  | JFloat f => is_finite f
  | JList l => forallb json_compliant l
  | JDict d => forallb (fun kv => match kv with (_, v') => json_compliant v' end) d
  | _ => true
  end.

(** The responses of this application. *)
Inductive response : Type :=
| JSONResponse (status_code : Z) (content : json)
| UnprocessableEntity (errors : list validation_error)
    (* request validation: a JSON body whose [detail] lists the errors *)
| InternalServerError.
    (* an exception no handler is registered for: plain text *)

Definition status (r : response) : Z :=
  match r with
  | JSONResponse st _ => st
  | UnprocessableEntity _ => 422
  | InternalServerError => 500
  end.

(** [jsonable_encoder], with its default [sqlalchemy_safe=True], on a
    decoded JSON value: at every depth the entries of an object whose key
    starts with [_sa] are dropped, and nothing else changes. *)
Definition sqlalchemy_key (key : string) : bool := String.prefix "_sa" key.

Fixpoint jsonable_encoder (v : json) : json :=
  match v with
  | JList l => JList (map jsonable_encoder l)
  | JDict d =>
      JDict (List.filter (fun kv => negb (sqlalchemy_key (fst kv)))
               (map (fun kv => match kv with (k, v') => (k, jsonable_encoder v') end) d))
  | _ => v
  end.

(** The body of a response from a handler's return value: validated
    against the route's [response_model], when it declares one, and
    reduced to the model's fields, or else passed through
    [jsonable_encoder]; then rendered. *)
Definition serialize (response_model : option base_model) (v : json) : option json :=
  let validated :=
    match response_model with
    | None => Some (jsonable_encoder v)
    | Some m =>
        match validate m v with
        | inr values => Some (JDict values)
        | inl _ => None
        end
    end in
  match validated with
  | Some body => if json_compliant body then Some body else None
  | None => None
  end.

(** A handler's outcome as a response: its return value with status 200,
    an [HTTPException] with its own status and a [detail] body, and any
    other exception as an internal server error. *)
Definition respond (response_model : option base_model) (handler : M json)
  : list event -> response * list event :=
  fun t =>
    match handler t with
    | (Return v, t') =>
        (match serialize response_model v with
         | Some body => JSONResponse 200 body
         | None => InternalServerError
         end, t')
    | (Raise (HTTPException st d), t') =>
        (JSONResponse st (JDict [("detail", JStr d)]), t')
    | (Raise (Exc _ _), t') => (InternalServerError, t')
    end.

End FastAPI.

(** ** [Backend/main.py] *)

Module Backend.
Import Py Groq Run FastAPI.

(** *** Configuration *)

(** [load_dotenv()]: the variables of the [.env] file join the process
    environment, those already set there keeping their value. *)
Definition load_dotenv (dotenv environ : gmap string string) : gmap string string :=
  environ ∪ dotenv.

(** [os.getenv(name)] *)
Definition getenv (environ : gmap string string) (name : string) : option string :=
  environ !! name.

(** Lines 10 to 15: the key is read once, and a missing or empty key
    ([not GROQ_API_KEY]) stops the module from loading. *)
Definition init (dotenv environ : gmap string string) : outcome AsyncClient :=
  let environ := load_dotenv dotenv environ in
  match getenv environ "GROQ_API_KEY" with
  | Some GROQ_API_KEY =>
      if String.eqb GROQ_API_KEY ""
      then Raise (Exc "ValueError" "CRITICAL: GROQ_API_KEY is not set in the .env file.")
      else Return {| api_key := GROQ_API_KEY |}
  | None => Raise (Exc "ValueError" "CRITICAL: GROQ_API_KEY is not set in the .env file.")
  end.

(** *** Models *)

Module CodeRequest.
Record t : Type := { code : string }.

Definition parse (body : json) : list validation_error + t :=
  match body with
  | JDict d =>
      match str_field d "code" with
      | inr c => inr {| code := c |}
      | inl e => inl [e]
      end
  | _ => inl [NotAnObject]
  end.
End CodeRequest.

Module TranslateRequest.
Record t : Type := { code : string; target_language : string }.

Definition parse (body : json) : list validation_error + t :=
  match body with
  | JDict d =>
      match str_field d "code", str_field d "target_language" with
      | inr c, inr l => inr {| code := c; target_language := l |}
      | inl e, inr _ => inl [e]
      | inr _, inl e => inl [e]
      | inl e1, inl e2 => inl [e1; e2]
      end
  | _ => inl [NotAnObject]
  end.
End TranslateRequest.

Definition CodeResponse : base_model :=
  [ ("original_score", TInt);
    ("refined_score", TInt);
    ("bugs", TStr);
    ("performance", TStr);
    ("improvements", TListStr);
    ("optimized_code", TStr);
    ("explanation", TStr);
    ("time_complexity", TStr);
    ("space_complexity", TStr) ].

(** *** Core logic *)

(** A message of the conversation: [{"role": ..., "content": ...}]. *)
Definition chat_message (role content : string) : json :=
  JDict [("role", JStr role); ("content", JStr content)].

Definition review_system_prompt : string :=
  "You are a strict Senior Software Architect. Analyze code using this exact 100-point rubric:" +:+ nl
  +:+ "1. Logic & Correctness (30 pts): Does it work? Are there edge-case bugs?" +:+ nl
  +:+ "2. Time/Space Efficiency (25 pts): Is the algorithm optimal (Big O)?" +:+ nl
  +:+ "3. Security & Safety (15 pts): Are there vulnerabilities or crash risks?" +:+ nl
  +:+ "4. Readability & Standards (15 pts): Variable naming, clean code patterns?" +:+ nl
  +:+ "5. Maintainability (15 pts): Is the architecture scalable?" +:+ nl
  +:+ nl
  +:+ "STRICT RULES:" +:+ nl
  +:+ "- Calculate the 'original_score' by summing the points above for the USER'S code." +:+ nl
  +:+ "- Calculate the 'refined_score' for YOUR optimized version (this should be 95-100)." +:+ nl
  +:+ "- If the user's code is already optimal, 'original_score' must be 100." +:+ nl
  +:+ "- 'optimized_code' must be a single string. Use '\n' for new lines and escape all quotes." +:+ nl
  +:+ "- Return ONLY a valid JSON object. No markdown, no triple quotes." +:+ nl
  +:+ nl
  +:+ "JSON Schema:" +:+ nl
  +:+ "{" +:+ nl
  +:+ "    " +:+ dq +:+ "original_score" +:+ dq +:+ ": int," +:+ nl
  +:+ "    " +:+ dq +:+ "refined_score" +:+ dq +:+ ": int," +:+ nl
  +:+ "    " +:+ dq +:+ "bugs" +:+ dq +:+ ": " +:+ dq +:+ "string" +:+ dq +:+ "," +:+ nl
  +:+ "    " +:+ dq +:+ "performance" +:+ dq +:+ ": " +:+ dq +:+ "string" +:+ dq +:+ "," +:+ nl
  +:+ "    " +:+ dq +:+ "improvements" +:+ dq +:+ ": [" +:+ dq +:+ "list" +:+ dq +:+ "]," +:+ nl
  +:+ "    " +:+ dq +:+ "optimized_code" +:+ dq +:+ ": " +:+ dq +:+ "string" +:+ dq +:+ "," +:+ nl
  +:+ "    " +:+ dq +:+ "explanation" +:+ dq +:+ ": " +:+ dq +:+ "string" +:+ dq +:+ "," +:+ nl
  +:+ "    " +:+ dq +:+ "time_complexity" +:+ dq +:+ ": " +:+ dq +:+ "string" +:+ dq +:+ "," +:+ nl
  +:+ "    " +:+ dq +:+ "space_complexity" +:+ dq +:+ ": " +:+ dq +:+ "string" +:+ dq +:+ nl
  +:+ "}".

Definition translate_system_prompt (target_language : string) : string :=
  "You are a polyglot expert. Translate this code to " +:+ target_language +:+ "." +:+ nl
  +:+ "Rules: Return ONLY JSON: {" +:+ dq +:+ "translated_code" +:+ dq +:+ ": "
  +:+ dq +:+ "string" +:+ dq +:+ "}. "
  +:+ "Use '\n' and escape double quotes. No markdown tags.".

(** The keyword arguments of the call in [review_code]. *)
Definition review_args (request : CodeRequest.t) : create_args :=
  {| messages :=
       [ chat_message "system" review_system_prompt;
         chat_message "user"
           ("Perform a rubric-based review of this code:" +:+ nl +:+ nl
            +:+ CodeRequest.code request) ];
     model := "llama-3.3-70b-versatile";
     temperature := float_0_1;
     response_format := JDict [("type", JStr "json_object")] |}.

(** The keyword arguments of the call in [translate_code]. *)
Definition translate_args (request : TranslateRequest.t) : create_args :=
  {| messages :=
       [ chat_message "system"
           (translate_system_prompt (TranslateRequest.target_language request));
         chat_message "user" (TranslateRequest.code request) ];
     model := "llama-3.3-70b-versatile";
     temperature := float_0_1;
     response_format := JDict [("type", JStr "json_object")] |}.

Section Handlers.

(** The module-level [client], the service that answers its calls, and
    the standard decoder [json.loads]: a handler is correct whatever the
    latter two do. *)
Variable client : AsyncClient.
Variable create : AsyncClient -> create_args -> outcome ChatCompletion.
Variable json_loads : string -> outcome json.

(** [await client.chat.completions.create(...)] *)
Definition await_create (args : create_args) : M ChatCompletion :=
  fun t => (create client args, (t ++ [EvCreate client args])%list).

(** [response.choices[0].message.content] *)
Definition first_content (response : ChatCompletion) : outcome (option string) :=
  match choices response with
  | choice :: _ => Return (content (message choice))
  | [] => Raise (Exc "IndexError" "list index out of range")
  end.

(** [json.loads] of a completion's content, which may be [None]. *)
Definition loads (text : option string) : outcome json :=
  match text with
  | Some s => json_loads s
  | None => Raise (Exc "TypeError"
                     "the JSON object must be str, bytes or bytearray, not NoneType")
  end.

(** The [try] block of [review_code]. *)
Definition review_try (request : CodeRequest.t) : M json :=
  response <- await_create (review_args request) ;;
  text <- lift (first_content response) ;;
  ai_data <- lift (loads text) ;;
  original <- lift (get ai_data "original_score" (JInt 0)) ;;
  original <- lift (int original) ;;
  ai_data <- lift (setitem ai_data "original_score" (JInt original)) ;;
  refined <- lift (get ai_data "refined_score" (JInt 0)) ;;
  refined <- lift (int refined) ;;
  ai_data <- lift (setitem ai_data "refined_score" (JInt refined)) ;;
  ret ai_data.

Definition review_code (request : CodeRequest.t) : M json :=
  try_except (review_try request)
    (fun e =>
       run print ("Error: " +:+ exn_str e) ;;
       raise (HTTPException 500 "Heuristic analysis engine failed.")).

(** The [try] block of [translate_code]. *)
Definition translate_try (request : TranslateRequest.t) : M json :=
  response <- await_create (translate_args request) ;;
  text <- lift (first_content response) ;;
  lift (loads text).

Definition translate_code (request : TranslateRequest.t) : M json :=
  try_except (translate_try request)
    (fun e =>
       ret (JDict [("translated_code", JStr ("// Translation error: " +:+ exn_str e))])).

(** *** The handlers' steps, read as plain values *)

(** [json.loads(response.choices[0].message.content)] for the response
    to a call, or the exception met on the way. *)
Definition decoded_reply (args : create_args) : outcome json :=
  and_then (create client args) (fun response =>
  and_then (first_content response) loads).

(** *** Routes *)

(** [@app.post("/review", response_model=CodeResponse)] *)
Definition post_review (body : json) : list event -> response * list event :=
  match CodeRequest.parse body with
  | inl errors => fun t => (UnprocessableEntity errors, t)
  | inr request => respond (Some CodeResponse) (review_code request)
  end.

(** [@app.post("/translate")] *)
Definition post_translate (body : json) : list event -> response * list event :=
  match TranslateRequest.parse body with
  | inl errors => fun t => (UnprocessableEntity errors, t)
  | inr request => respond None (translate_code request)
  end.

End Handlers.

(** [int(d.get(key, 0))] on a [dict]. *)
Definition score (d : list (string * json)) (key : string) : outcome Z :=
  int (match assoc_get d key with Some v => v | None => JInt 0 end).

(** Lines 93 and 94 on the decoded reply. *)
Definition coerce_scores (ai_data : json) : outcome json :=
  and_then (get ai_data "original_score" (JInt 0)) (fun v =>
  and_then (int v) (fun original =>
  and_then (setitem ai_data "original_score" (JInt original)) (fun ai_data =>
  and_then (get ai_data "refined_score" (JInt 0)) (fun v =>
  and_then (int v) (fun refined =>
  setitem ai_data "refined_score" (JInt refined)))))).

(** The calls of the completion service a trace records, and the clients
    they went through. *)
Definition calls (t : list event) : list create_args :=
  flat_map (fun ev => match ev with EvCreate _ args => [args] | EvPrint _ => [] end) t.


(** The lines a trace records as printed on the server's output. *)
Definition printed (t : list event) : list string :=
  flat_map (fun ev => match ev with EvPrint line => [line] | EvCreate _ _ => [] end) t.

(** *** Reading the rubric off a prompt *)

Definition contains (needle text : string) : bool :=
  match String.index 0 needle text with Some _ => true | None => false end.

(** [text.split("\n")] *)
Fixpoint lines (text : string) : list string :=
  match text with
  | EmptyString => [EmptyString]
  | String c text' =>
      if (ord c =? 10)%Z then EmptyString :: lines text'
      else match lines text' with
           | l :: ls => String c l :: ls
           | [] => [String c EmptyString]
           end
  end.

Fixpoint all_digits (s : string) : bool :=
  match s with
  | EmptyString => true
  | String c s' => is_digit c && all_digits s'
  end.

(** A line of the form [<number>. <criterion> (<points> pts)...] names a
    criterion and its weight. *)
Definition rubric_line (line : string) : option (string * Z) :=
  match String.index 0 ". " line with
  | Some i =>
      if all_digits (String.substring 0 i line) && (0 <? i)%nat then
        match String.index i " (" line with
        | Some j =>
            match String.index j " pts)" line with
            | Some k =>
                match int_of_str (String.substring (j + 2) (k - (j + 2)) line) with
                | Return points => Some (String.substring (i + 2) (j - (i + 2)) line, points)
                | Raise _ => None
                end
            | None => None
            end
        | None => None
        end
      else None
  | None => None
  end.

Definition rubric (prompt : string) : list (string * Z) :=
  flat_map (fun line => match rubric_line line with Some c => [c] | None => [] end)
           (lines prompt).




End Backend.

(** ** Stand-ins for the service and the decoder, for running examples *)

Module Doubles.
Import Py Groq.

(** A service that answers every call with one choice of the given
    content. *)
Definition answering (text : option string)
  : AsyncClient -> create_args -> outcome ChatCompletion :=
  fun _ _ => Return {| choices := [ {| message := {| content := text |} |} ] |}.

(** A service no call reaches. *)
Definition unreachable : AsyncClient -> create_args -> outcome ChatCompletion :=
  fun _ _ => Raise (Exc "APIConnectionError" "Connection error.").

(** [json.loads] on the one text an example uses: [value] on [text], as
    Python's decoder returns it there; any other text is taken for
    malformed, which holds of the one other text the examples decode,
    ["not json"]. *)
Definition decoding (text : string) (value : json) : string -> outcome json :=
  fun s =>
    if String.eqb s text then Return value
    else Raise (Exc "JSONDecodeError" "Expecting value: line 1 column 1 (char 0)").

Definition the_client : AsyncClient := {| api_key := "gsk_example" |}.

(** Two request bodies. *)
Definition review_body : json := JDict [("code", JStr "def f(x): return x+1")].

Definition review_request : Backend.CodeRequest.t :=
  {| Backend.CodeRequest.code := "def f(x): return x+1" |}.

Definition translate_body : json :=
  JDict [("code", JStr "def f(x): return x+1"); ("target_language", JStr "Rust")].

(** [{"original_score": 150, "bugs": "none", ...}]: a reply with every
    field but [refined_score], and a score above 100. *)
Definition reply_150_text : string :=
  "{" +:+ dq +:+ "original_score" +:+ dq +:+ ": 150, "
  +:+ dq +:+ "bugs" +:+ dq +:+ ": " +:+ dq +:+ "none" +:+ dq +:+ ", "
  +:+ dq +:+ "performance" +:+ dq +:+ ": " +:+ dq +:+ "fine" +:+ dq +:+ ", "
  +:+ dq +:+ "improvements" +:+ dq +:+ ": [], "
  +:+ dq +:+ "optimized_code" +:+ dq +:+ ": " +:+ dq +:+ "def f(x): return x + 1" +:+ dq +:+ ", "
  +:+ dq +:+ "explanation" +:+ dq +:+ ": " +:+ dq +:+ "spacing" +:+ dq +:+ ", "
  +:+ dq +:+ "time_complexity" +:+ dq +:+ ": " +:+ dq +:+ "O(1)" +:+ dq +:+ ", "
  +:+ dq +:+ "space_complexity" +:+ dq +:+ ": " +:+ dq +:+ "O(1)" +:+ dq +:+ "}".

Definition reply_150 : json :=
  JDict [ ("original_score", JInt 150);
          ("bugs", JStr "none");
          ("performance", JStr "fine");
          ("improvements", JList []);
          ("optimized_code", JStr "def f(x): return x + 1");
          ("explanation", JStr "spacing");
          ("time_complexity", JStr "O(1)");
          ("space_complexity", JStr "O(1)") ].

(** What the review route answers to it. *)
Definition answer_150 : json :=
  JDict [ ("original_score", JInt 150);
          ("refined_score", JInt 0);
          ("bugs", JStr "none");
          ("performance", JStr "fine");
          ("improvements", JList []);
          ("optimized_code", JStr "def f(x): return x + 1");
          ("explanation", JStr "spacing");
          ("time_complexity", JStr "O(1)");
          ("space_complexity", JStr "O(1)") ].

(** [{"original_score": 80, "refined_score": 97}]: a reply with the
    scores alone. *)
Definition scores_only_text : string :=
  "{" +:+ dq +:+ "original_score" +:+ dq +:+ ": 80, "
  +:+ dq +:+ "refined_score" +:+ dq +:+ ": 97}".

Definition scores_only : json :=
  JDict [("original_score", JInt 80); ("refined_score", JInt 97)].

(** [{"original_score": "high", "refined_score": 97}]: a score that is
    no number. *)
Definition score_high_text : string :=
  "{" +:+ dq +:+ "original_score" +:+ dq +:+ ": " +:+ dq +:+ "high" +:+ dq +:+ ", "
  +:+ dq +:+ "refined_score" +:+ dq +:+ ": 97}".

Definition score_high : json :=
  JDict [("original_score", JStr "high"); ("refined_score", JInt 97)].

(** [{"translated_code": NaN}] *)
Definition nan_text : string :=
  "{" +:+ dq +:+ "translated_code" +:+ dq +:+ ": NaN}".

(** A reply with the nine fields of the response, each of its type. *)
Definition plain_reply_text : string :=
  "{" +:+ dq +:+ "original_score" +:+ dq +:+ ": 72, "
  +:+ dq +:+ "refined_score" +:+ dq +:+ ": 98, "
  +:+ dq +:+ "bugs" +:+ dq +:+ ": " +:+ dq +:+ "none" +:+ dq +:+ ", "
  +:+ dq +:+ "performance" +:+ dq +:+ ": " +:+ dq +:+ "fine" +:+ dq +:+ ", "
  +:+ dq +:+ "improvements" +:+ dq +:+ ": [" +:+ dq +:+ "spacing" +:+ dq +:+ "], "
  +:+ dq +:+ "optimized_code" +:+ dq +:+ ": " +:+ dq +:+ "def f(x): return x + 1" +:+ dq +:+ ", "
  +:+ dq +:+ "explanation" +:+ dq +:+ ": " +:+ dq +:+ "spacing" +:+ dq +:+ ", "
  +:+ dq +:+ "time_complexity" +:+ dq +:+ ": " +:+ dq +:+ "O(1)" +:+ dq +:+ ", "
  +:+ dq +:+ "space_complexity" +:+ dq +:+ ": " +:+ dq +:+ "O(1)" +:+ dq +:+ "}".

Definition plain_fields : list (string * json) :=
  [ ("original_score", JInt 72);
    ("refined_score", JInt 98);
    ("bugs", JStr "none");
    ("performance", JStr "fine");
    ("improvements", JList [JStr "spacing"]);
    ("optimized_code", JStr "def f(x): return x + 1");
    ("explanation", JStr "spacing");
    ("time_complexity", JStr "O(1)");
    ("space_complexity", JStr "O(1)") ].

(** The same reply with one more entry, [confidence], that the response
    model does not declare. *)
Definition full_reply_text : string :=
  "{" +:+ dq +:+ "original_score" +:+ dq +:+ ": 72, "
  +:+ dq +:+ "refined_score" +:+ dq +:+ ": 98, "
  +:+ dq +:+ "bugs" +:+ dq +:+ ": " +:+ dq +:+ "none" +:+ dq +:+ ", "
  +:+ dq +:+ "performance" +:+ dq +:+ ": " +:+ dq +:+ "fine" +:+ dq +:+ ", "
  +:+ dq +:+ "improvements" +:+ dq +:+ ": [" +:+ dq +:+ "spacing" +:+ dq +:+ "], "
  +:+ dq +:+ "optimized_code" +:+ dq +:+ ": " +:+ dq +:+ "def f(x): return x + 1" +:+ dq +:+ ", "
  +:+ dq +:+ "explanation" +:+ dq +:+ ": " +:+ dq +:+ "spacing" +:+ dq +:+ ", "
  +:+ dq +:+ "time_complexity" +:+ dq +:+ ": " +:+ dq +:+ "O(1)" +:+ dq +:+ ", "
  +:+ dq +:+ "space_complexity" +:+ dq +:+ ": " +:+ dq +:+ "O(1)" +:+ dq +:+ ", "
  +:+ dq +:+ "confidence" +:+ dq +:+ ": " +:+ dq +:+ "high" +:+ dq +:+ "}".

Definition full_fields : list (string * json) :=
  (plain_fields ++ [("confidence", JStr "high")])%list.

(** [{"_sa_instance_state": 1, "translated_code": "x"}] *)
Definition sa_text : string :=
  "{" +:+ dq +:+ "_sa_instance_state" +:+ dq +:+ ": 1, "
  +:+ dq +:+ "translated_code" +:+ dq +:+ ": " +:+ dq +:+ "x" +:+ dq +:+ "}".

Definition translate_request : Backend.TranslateRequest.t :=
  {| Backend.TranslateRequest.code := "def f(x): return x+1";
     Backend.TranslateRequest.target_language := "Rust" |}.

End Doubles.

(** * Properties *)

Import Py Groq Run FastAPI Backend Doubles.

Implicit Types (client : AsyncClient) (json_loads : string -> outcome json).
Implicit Types (create : AsyncClient -> create_args -> outcome ChatCompletion).
Implicit Types (body : json) (t : list event) (e : exn).

(** A request answered by a validation error that is found by
    computation. *)
Ltac rejected :=
  eexists; split; [reflexivity|]; split; [discriminate|]; split; [|reflexivity];
  intros ? ?; first [discriminate | simpl; auto].

(** ** The embedding at work *)

Example int_of_a_padded_literal : int (JStr " 1_000 ") = Return 1000.
Proof. reflexivity. Qed.

Example int_of_a_word :
  int (JStr "high")
  = Raise (Exc "ValueError" "invalid literal for int() with base 10: 'high'").
Proof. reflexivity. Qed.

Example int_truncates_towards_zero :
  int (JFloat (S754_finite true 8782019273372467 (-51))) = Return (-3).
Proof. reflexivity. Qed.

Example int_of_none :
  int JNull
  = Raise (Exc "TypeError"
             "int() argument must be a string, a bytes-like object or a real number, not 'NoneType'").
Proof. reflexivity. Qed.

Example get_on_a_list :
  get (JList []) "original_score" (JInt 0)
  = Raise (Exc "AttributeError" "'list' object has no attribute 'get'").
Proof. reflexivity. Qed.

Example setitem_keeps_the_order :
  setitem (JDict [("original_score", JStr "41"); ("bugs", JStr "none")])
    "original_score" (JInt 41)
  = Return (JDict [("original_score", JInt 41); ("bugs", JStr "none")]).
Proof. reflexivity. Qed.

(** The key may come from the [.env] file alone. *)
Example startup_with_the_key_in_dotenv :
  init {[ "GROQ_API_KEY" := "gsk_example" ]} ∅ = Return the_client.
Proof. vm_compute. reflexivity. Qed.

(** A reply that is an array has no [get]. *)
Example review_of_an_array_reply :
  fst (post_review the_client (answering (Some "[]")) (decoding "[]" (JList []))
         review_body [])
  = JSONResponse 500 (JDict [("detail", JStr "Heuristic analysis engine failed.")]).
Proof. vm_compute. reflexivity. Qed.

(** A completion without content. *)
Example translate_without_content :
  fst (post_translate the_client (answering None) (decoding "{}" (JDict []))
         translate_body [])
  = JSONResponse 200
      (JDict [("translated_code",
               JStr "// Translation error: the JSON object must be str, bytes or bytearray, not NoneType")]).
Proof. vm_compute. reflexivity. Qed.

(** Python decodes [NaN]; the response cannot carry it. *)
Example translate_of_a_nan_reply :
  fst (post_translate the_client (answering (Some nan_text))
         (decoding nan_text (JDict [("translated_code", JFloat S754_nan)]))
         translate_body [])
  = InternalServerError.
Proof. vm_compute. reflexivity. Qed.

(** The framework's encoder drops an entry whose key starts with [_sa]. *)
Example translate_of_a_reply_with_an_sa_key :
  fst (post_translate the_client (answering (Some sa_text))
         (decoding sa_text (JDict [("_sa_instance_state", JInt 1);
                                   ("translated_code", JStr "x")]))
         translate_body [])
  = JSONResponse 200 (JDict [("translated_code", JStr "x")]).
Proof. vm_compute. reflexivity. Qed.

(** ** Dictionaries *)

Lemma assoc_get_set_same (d : list (string * json)) k v :
  assoc_get (assoc_set d k v) k = Some v.
Proof.
  induction d as [|[k' v'] d IH]; simpl.
  - now rewrite String.eqb_refl.
  - destruct (String.eqb k' k) eqn:E; simpl; rewrite E; auto.
Qed.

Lemma assoc_get_set_other (d : list (string * json)) k k' v :
  k <> k' -> assoc_get (assoc_set d k v) k' = assoc_get d k'.
Proof.
  intros Hne. induction d as [|[k0 v0] d IH]; simpl.
  - destruct (String.eqb_spec k k'); congruence.
  - destruct (String.eqb_spec k0 k) as [->|Hk]; simpl.
    + destruct (String.eqb_spec k k'); congruence.
    + now rewrite IH.
Qed.

(** ** Validation against a model *)

Lemma validate_value_compliant ty v :
  validate_value ty v = true -> json_compliant v = true.
Proof.
  destruct ty, v; simpl; try discriminate; auto.
  intros H. induction l as [|x l IH]; simpl in *; auto.
  apply andb_prop in H as [Hx Hl].
  rewrite (IH Hl), andb_true_r. now destruct x.
Qed.

Lemma validate_fields_compliant fields d :
  forallb (fun kv => match kv with (_, v) => json_compliant v end)
          (snd (validate_fields fields d)) = true.
Proof.
  induction fields as [|[name ty] fields IH]; simpl; auto.
  destruct (validate_fields fields d) as [errors values]; simpl in *.
  destruct (assoc_get d name) as [v|]; simpl; auto.
  destruct (validate_value ty v) eqn:E; simpl; auto.
  now rewrite (validate_value_compliant _ _ E).
Qed.

(** A body that passes has the model's fields, in its order, each with
    the value the handler returned under that name. *)
Lemma validate_fields_names fields d values :
  validate_fields fields d = ([], values) ->
  map fst values = map fst fields.
Proof.
  revert values. induction fields as [|[name ty] fields IH]; simpl; intros values H.
  - now inversion H.
  - destruct (validate_fields fields d) as [errors vals].
    destruct (assoc_get d name) as [v|]; [|discriminate].
    destruct (validate_value ty v); [|discriminate].
    inversion H; subst. simpl. f_equal. now apply IH.
Qed.

Lemma validate_fields_sound fields d values key v :
  validate_fields fields d = ([], values) ->
  assoc_get values key = Some v ->
  assoc_get d key = Some v.
Proof.
  revert values. induction fields as [|[name ty] fields IH]; simpl; intros values H Hget.
  - inversion H; subst. discriminate.
  - destruct (validate_fields fields d) as [errors vals].
    destruct (assoc_get d name) as [w|] eqn:Hd; [|discriminate].
    destruct (validate_value ty w); [|discriminate].
    inversion H; subst. simpl in Hget.
    destruct (String.eqb_spec name key) as [->|Hne].
    + congruence.
    + now apply (IH vals).
Qed.

Lemma validate_fields_complete fields d values name ty :
  validate_fields fields d = ([], values) ->
  In (name, ty) fields ->
  exists v, assoc_get d name = Some v /\ validate_value ty v = true
            /\ assoc_get values name = Some v.
Proof.
  revert values. induction fields as [|[name' ty'] fields IH]; simpl; intros values H Hin.
  - contradiction.
  - destruct (validate_fields fields d) as [errors vals].
    destruct (assoc_get d name') as [w|] eqn:Hd; [|discriminate].
    destruct (validate_value ty' w) eqn:Hv; [|discriminate].
    inversion H; subst. simpl.
    destruct (String.eqb_spec name' name) as [->|Hne].
    + destruct Hin as [Heq|Hin].
      * inversion Heq; subst. eauto.
      * destruct (IH vals eq_refl Hin) as (v & Hv1 & Hv2 & _).
        rewrite Hd in Hv1. inversion Hv1; subst. eauto.
    + destruct Hin as [Heq|Hin]; [congruence|].
      now apply IH.
Qed.

Lemma validate_fields_missing fields d name ty :
  In (name, ty) fields ->
  assoc_get d name = None ->
  fst (validate_fields fields d) <> [].
Proof.
  induction fields as [|[name' ty'] fields IH]; simpl; intros Hin Hnone.
  - contradiction.
  - destruct (validate_fields fields d) as [errors vals] eqn:E; simpl in *.
    destruct Hin as [Heq|Hin].
    + inversion Heq; subst. rewrite Hnone. discriminate.
    + specialize (IH Hin Hnone).
      destruct (assoc_get d name') as [w|]; [|discriminate].
      destruct (validate_value ty' w); simpl; [auto|discriminate].
Qed.

(** ** The handlers, step by step *)

Section Relay.

Variable client : AsyncClient.
Variable create : AsyncClient -> create_args -> outcome ChatCompletion.
Variable json_loads : string -> outcome json.

Lemma review_try_eq request t :
  review_try client create json_loads request t =
  (and_then (decoded_reply client create json_loads (review_args request)) coerce_scores,
   (t ++ [EvCreate client (review_args request)])%list).
Proof.
  unfold review_try, decoded_reply, coerce_scores, bind, await_create, lift, ret, and_then.
  destruct (create client (review_args request)) as [response|e]; [|reflexivity].
  destruct (first_content response) as [text|e]; [|reflexivity].
  destruct (loads json_loads text) as [ai_data|e]; [|reflexivity].
  destruct (get ai_data "original_score" (JInt 0)) as [v|e]; [|reflexivity].
  destruct (int v) as [original|e]; [|reflexivity].
  destruct (setitem ai_data "original_score" (JInt original)) as [ai_data'|e]; [|reflexivity].
  destruct (get ai_data' "refined_score" (JInt 0)) as [v'|e]; [|reflexivity].
  destruct (int v') as [refined|e]; [|reflexivity].
  now destruct (setitem ai_data' "refined_score" (JInt refined)).
Qed.

Lemma review_code_eq request t :
  review_code client create json_loads request t =
  let t1 := (t ++ [EvCreate client (review_args request)])%list in
  match and_then (decoded_reply client create json_loads (review_args request))
                 coerce_scores with
  | Return ai_data => (Return ai_data, t1)
  | Raise e =>
      (Raise (HTTPException 500 "Heuristic analysis engine failed."),
       (t1 ++ [EvPrint ("Error: " +:+ exn_str e)])%list)
  end.
Proof.
  unfold review_code, try_except. rewrite review_try_eq.
  now destruct (and_then _ _).
Qed.

Lemma translate_try_eq request t :
  translate_try client create json_loads request t =
  (decoded_reply client create json_loads (translate_args request),
   (t ++ [EvCreate client (translate_args request)])%list).
Proof.
  unfold translate_try, decoded_reply, bind, await_create, lift, and_then.
  destruct (create client (translate_args request)) as [response|e]; [|reflexivity].
  now destruct (first_content response).
Qed.

Lemma translate_code_eq request t :
  translate_code client create json_loads request t =
  (Return match decoded_reply client create json_loads (translate_args request) with
          | Return v => v
          | Raise e => JDict [("translated_code", JStr ("// Translation error: " +:+ exn_str e))]
          end,
   (t ++ [EvCreate client (translate_args request)])%list).
Proof.
  unfold translate_code, try_except. rewrite translate_try_eq.
  now destruct (decoded_reply _ _ _ _).
Qed.

(** The two coercions on a [dict]: both scores are read from the reply
    itself, and they are the only entries that change. *)
Lemma coerce_scores_dict d :
  coerce_scores (JDict d) =
  and_then (score d "original_score") (fun original =>
  and_then (score d "refined_score") (fun refined =>
  Return (JDict (assoc_set (assoc_set d "original_score" (JInt original))
                           "refined_score" (JInt refined))))).
Proof.
  unfold coerce_scores, score; simpl.
  destruct (int _) as [original|e]; simpl; [|reflexivity].
  rewrite assoc_get_set_other by discriminate.
  now destruct (int _).
Qed.

Lemma coerce_scores_not_dict v :
  (forall d, v <> JDict d) -> exists e, coerce_scores v = Raise e.
Proof.
  intros H. destruct v; try (eexists; reflexivity).
  now destruct (H d).
Qed.

(** Failures of the call and of the decoder are failures of the reply. *)
Lemma decoded_call_raises args e :
  create client args = Raise e ->
  decoded_reply client create json_loads args = Raise e.
Proof. unfold decoded_reply. now intros ->. Qed.

Lemma decoded_loads_raises args response text e :
  create client args = Return response ->
  first_content response = Return (Some text) ->
  json_loads text = Raise e ->
  decoded_reply client create json_loads args = Raise e.
Proof. unfold decoded_reply. intros -> H1 H2. simpl. now rewrite H1. Qed.

End Relay.

(** ** The review route *)

(** The response of the review route, from the reply and its scores. *)
Lemma post_review_eq client create json_loads body request t :
  CodeRequest.parse body = inr request ->
  post_review client create json_loads body t =
  let t1 := (t ++ [EvCreate client (review_args request)])%list in
  match and_then (decoded_reply client create json_loads (review_args request))
                 coerce_scores with
  | Return ai_data =>
      (match serialize (Some CodeResponse) ai_data with
       | Some content => JSONResponse 200 content
       | None => InternalServerError
       end, t1)
  | Raise e =>
      (JSONResponse 500 (JDict [("detail", JStr "Heuristic analysis engine failed.")]),
       (t1 ++ [EvPrint ("Error: " +:+ exn_str e)])%list)
  end.
Proof.
  intros Hparse. unfold post_review, respond. rewrite Hparse, review_code_eq.
  now destruct (and_then _ _).
Qed.

(** With a response model the body is what validation kept. *)
Lemma serialize_model m ai_data :
  serialize (Some m) ai_data =
  match validate m ai_data with
  | inr values => Some (JDict values)
  | inl _ => None
  end.
Proof.
  unfold serialize, validate. destruct ai_data; try reflexivity.
  pose proof (validate_fields_compliant m d) as Hc.
  destruct (validate_fields m d) as [[|err errors] values]; simpl in *; [|reflexivity].
  now rewrite Hc.
Qed.

(** C1, as amended.  A review answered with status 200 carries the two
    scores as integers: each is [int] of what the reply holds under its
    name, and 0 when the reply has no such entry.  No range is enforced. *)
Theorem review_200_scores_are_integers client create json_loads body t content t' :
  post_review client create json_loads body t = (JSONResponse 200 content, t') ->
  exists request reply original refined,
    CodeRequest.parse body = inr request /\
    decoded_reply client create json_loads (review_args request) = Return (JDict reply) /\
    score reply "original_score" = Return original /\
    score reply "refined_score" = Return refined /\
    member content "original_score" = Some (JInt original) /\
    member content "refined_score" = Some (JInt refined) /\
    (assoc_get reply "original_score" = None -> original = 0) /\
    (assoc_get reply "refined_score" = None -> refined = 0).
Proof.
  intros H.
  destruct (CodeRequest.parse body) as [errors|request] eqn:Hparse.
  { unfold post_review in H. rewrite Hparse in H. discriminate. }
  rewrite (post_review_eq _ _ _ _ _ _ Hparse) in H. cbv zeta in H.
  destruct (decoded_reply client create json_loads (review_args request))
    as [ai_data|e] eqn:Hreply; simpl in H; [|discriminate].
  destruct ai_data as [| | | | | |reply]; try discriminate.
  rewrite coerce_scores_dict in H.
  destruct (score reply "original_score") as [original|e] eqn:Ho; simpl in H; [|discriminate].
  destruct (score reply "refined_score") as [refined|e] eqn:Hr; simpl in H; [|discriminate].
  rewrite serialize_model in H. unfold validate in H.
  destruct (validate_fields CodeResponse _) as [[|err errors] values] eqn:Hv;
    [|discriminate].
  inversion H; subst content t'; clear H.
  exists request, reply, original, refined. repeat split; auto.
  - destruct (validate_fields_complete _ _ _ "original_score" TInt Hv) as (v & Hd & _ & Hval).
    { simpl; auto. }
    rewrite assoc_get_set_other, assoc_get_set_same in Hd by discriminate.
    simpl. congruence.
  - destruct (validate_fields_complete _ _ _ "refined_score" TInt Hv) as (v & Hd & _ & Hval).
    { simpl; auto. }
    rewrite assoc_get_set_same in Hd. simpl. congruence.
  - intros Hnone. unfold score in Ho. rewrite Hnone in Ho. simpl in Ho. congruence.
  - intros Hnone. unfold score in Hr. rewrite Hnone in Hr. simpl in Hr. congruence.
Qed.

Lemma review_200_scores_are_integers_witness :
  post_review the_client (answering (Some reply_150_text))
    (decoding reply_150_text reply_150) review_body []
  = (JSONResponse 200 answer_150, [EvCreate the_client (review_args review_request)])
  /\ exists request reply original refined,
       CodeRequest.parse review_body = inr request /\
       decoded_reply the_client (answering (Some reply_150_text))
         (decoding reply_150_text reply_150) (review_args request)
       = Return (JDict reply) /\
       score reply "original_score" = Return original /\
       score reply "refined_score" = Return refined /\
       member answer_150 "original_score" = Some (JInt original) /\
       member answer_150 "refined_score" = Some (JInt refined) /\
       (assoc_get reply "original_score" = None -> original = 0) /\
       (assoc_get reply "refined_score" = None -> refined = 0).
Proof.
  assert (H : post_review the_client (answering (Some reply_150_text))
                (decoding reply_150_text reply_150) review_body []
              = (JSONResponse 200 answer_150,
                 [EvCreate the_client (review_args review_request)]))
    by (vm_compute; reflexivity).
  split; [exact H|].
  exact (review_200_scores_are_integers _ _ _ _ _ _ _ H).
Defined.

(** C1 fails as stated: the reply's score 150 is answered as it is, with
    status 200, and it lies outside [0,100]. *)
Lemma review_200_with_score_150 :
  post_review the_client (answering (Some reply_150_text))
    (decoding reply_150_text reply_150) review_body []
  = (JSONResponse 200 answer_150, [EvCreate the_client (review_args review_request)])
  /\ member answer_150 "original_score" = Some (JInt 150)
  /\ ~ (0 <= 150 <= 100).
Proof.
  split; [vm_compute; reflexivity|].
  split; [reflexivity|lia].
Qed.

(** C3.  Whatever raises in the [try] block of [review_code] (the call
    itself, the decoding of a reply that is no JSON, or any later step),
    the handler raises [HTTPException(500, "Heuristic analysis engine
    failed.")] and the route answers 500 with that detail alone: the
    exception met is printed on the server and is no part of the answer. *)
Theorem review_failure_is_generic_500 client create json_loads body request t e :
  CodeRequest.parse body = inr request ->
  create client (review_args request) = Raise e
  \/ (exists response text,
        create client (review_args request) = Return response /\
        first_content response = Return (Some text) /\
        json_loads text = Raise e)
  \/ (exists t1, review_try client create json_loads request t = (Raise e, t1)) ->
  review_code client create json_loads request t
  = (Raise (HTTPException 500 "Heuristic analysis engine failed."),
     (t ++ [EvCreate client (review_args request); EvPrint ("Error: " +:+ exn_str e)])%list)
  /\ post_review client create json_loads body t
     = (JSONResponse 500 (JDict [("detail", JStr "Heuristic analysis engine failed.")]),
        (t ++ [EvCreate client (review_args request);
               EvPrint ("Error: " +:+ exn_str e)])%list).
Proof.
  intros Hparse Hfail.
  assert (Hraise : and_then (decoded_reply client create json_loads (review_args request))
                            coerce_scores = Raise e).
  { destruct Hfail as [Hcall|[(response & text & Hcall & Hcontent & Hloads)|(t1 & Htry)]].
    - now rewrite (decoded_call_raises _ _ _ _ _ Hcall).
    - now rewrite (decoded_loads_raises _ _ _ _ _ _ _ Hcall Hcontent Hloads).
    - rewrite review_try_eq in Htry. now inversion Htry. }
  rewrite (post_review_eq _ _ _ _ _ _ Hparse), review_code_eq. cbv zeta.
  rewrite Hraise, <- app_assoc. simpl. auto.
Qed.

Lemma review_failure_is_generic_500_witness :
  review_code the_client (answering (Some "not json")) (decoding "{}" (JDict []))
    review_request []
  = (Raise (HTTPException 500 "Heuristic analysis engine failed."),
     [EvCreate the_client (review_args review_request);
      EvPrint "Error: Expecting value: line 1 column 1 (char 0)"])
  /\ post_review the_client (answering (Some "not json")) (decoding "{}" (JDict []))
       review_body []
     = (JSONResponse 500 (JDict [("detail", JStr "Heuristic analysis engine failed.")]),
        [EvCreate the_client (review_args review_request);
         EvPrint "Error: Expecting value: line 1 column 1 (char 0)"]).
Proof.
  apply (review_failure_is_generic_500 the_client (answering (Some "not json"))
           (decoding "{}" (JDict [])) review_body review_request []
           (Exc "JSONDecodeError" "Expecting value: line 1 column 1 (char 0)")).
  - reflexivity.
  - right; left. eexists _, "not json". repeat split; reflexivity.
Defined.

(** C10.  A score the reply holds and [int] cannot convert is not
    replaced by 0: the conversion raises inside the [try] block, and the
    route answers 500 with the fixed detail, never 200. *)
Theorem review_unconvertible_score_is_500
    client create json_loads body request t reply key v e :
  CodeRequest.parse body = inr request ->
  decoded_reply client create json_loads (review_args request) = Return (JDict reply) ->
  key = "original_score" \/ key = "refined_score" ->
  assoc_get reply key = Some v ->
  int v = Raise e ->
  exists e',
    post_review client create json_loads body t
    = (JSONResponse 500 (JDict [("detail", JStr "Heuristic analysis engine failed.")]),
       (t ++ [EvCreate client (review_args request);
              EvPrint ("Error: " +:+ exn_str e')])%list)
    /\ (key = "original_score" -> e' = e)
    /\ forall content,
         fst (post_review client create json_loads body t) <> JSONResponse 200 content.
Proof.
  intros Hparse Hreply Hkey Hget Hint.
  assert (Hraise : exists e',
            and_then (decoded_reply client create json_loads (review_args request))
                     coerce_scores = Raise e'
            /\ (key = "original_score" -> e' = e)).
  { rewrite Hreply. simpl. rewrite coerce_scores_dict.
    destruct Hkey as [-> | ->].
    - exists e. unfold score at 1. rewrite Hget, Hint. auto.
    - destruct (score reply "original_score") as [original|e0]; simpl.
      + exists e. unfold score. rewrite Hget, Hint. split; [reflexivity|discriminate].
      + exists e0. split; [reflexivity|discriminate]. }
  destruct Hraise as (e' & Hraise & He').
  exists e'. rewrite (post_review_eq _ _ _ _ _ _ Hparse). cbv zeta.
  rewrite Hraise, <- app_assoc. simpl.
  repeat split; auto; discriminate.
Qed.

Lemma review_unconvertible_score_is_500_witness :
  int (JStr "high") = Raise (invalid_literal "high")
  /\ exists e',
       post_review the_client (answering (Some score_high_text))
         (decoding score_high_text score_high) review_body []
       = (JSONResponse 500 (JDict [("detail", JStr "Heuristic analysis engine failed.")]),
          [EvCreate the_client (review_args review_request);
           EvPrint ("Error: " +:+ exn_str e')])
       /\ ("original_score" = "original_score" -> e' = invalid_literal "high")
       /\ forall content,
            fst (post_review the_client (answering (Some score_high_text))
                   (decoding score_high_text score_high) review_body [])
            <> JSONResponse 200 content.
Proof.
  split; [reflexivity|].
  apply (review_unconvertible_score_is_500 the_client (answering (Some score_high_text))
           (decoding score_high_text score_high) review_body review_request []
           [("original_score", JStr "high"); ("refined_score", JInt 97)]
           "original_score" (JStr "high") (invalid_literal "high")).
  - reflexivity.
  - vm_compute. reflexivity.
  - left. reflexivity.
  - reflexivity.
  - reflexivity.
Defined.

(** C5, as amended.  On a reply that decodes to an object whose scores
    convert, the handler itself validates nothing: it returns the reply
    with the two scores replaced by integers and every other entry, known
    or not, as it was, and a missing entry raises nothing.  The route then
    holds the result against [CodeResponse]: the answer is 200 with
    exactly the nine declared fields when all of them validate, and an
    internal server error otherwise, in particular when one is missing. *)
Theorem review_reply_meets_response_model
    client create json_loads body request t reply original refined :
  CodeRequest.parse body = inr request ->
  decoded_reply client create json_loads (review_args request) = Return (JDict reply) ->
  score reply "original_score" = Return original ->
  score reply "refined_score" = Return refined ->
  exists ai_data,
    ai_data = assoc_set (assoc_set reply "original_score" (JInt original))
                        "refined_score" (JInt refined)
    /\ review_code client create json_loads request t
       = (Return (JDict ai_data), (t ++ [EvCreate client (review_args request)])%list)
    /\ (forall key, key <> "original_score" -> key <> "refined_score" ->
          assoc_get ai_data key = assoc_get reply key)
    /\ fst (post_review client create json_loads body t)
       = match validate CodeResponse (JDict ai_data) with
         | inr values => JSONResponse 200 (JDict values)
         | inl _ => InternalServerError
         end
    /\ (forall values, validate CodeResponse (JDict ai_data) = inr values ->
          map fst values = map fst CodeResponse
          /\ forall key v, assoc_get values key = Some v -> assoc_get ai_data key = Some v)
    /\ (forall name ty, In (name, ty) CodeResponse -> assoc_get ai_data name = None ->
          fst (post_review client create json_loads body t) = InternalServerError).
Proof.
  intros Hparse Hreply Ho Hr.
  assert (Hcoerce : and_then (decoded_reply client create json_loads (review_args request))
                             coerce_scores
                    = Return (JDict (assoc_set (assoc_set reply "original_score" (JInt original))
                                               "refined_score" (JInt refined)))).
  { rewrite Hreply. simpl. now rewrite coerce_scores_dict, Ho, Hr. }
  assert (Hroute : fst (post_review client create json_loads body t)
                   = match validate CodeResponse
                             (JDict (assoc_set (assoc_set reply "original_score" (JInt original))
                                               "refined_score" (JInt refined))) with
                     | inr values => JSONResponse 200 (JDict values)
                     | inl _ => InternalServerError
                     end).
  { rewrite (post_review_eq _ _ _ _ _ _ Hparse). cbv zeta.
    rewrite Hcoerce, serialize_model.
    destruct (validate CodeResponse (JDict _)); reflexivity. }
  eexists; split; [reflexivity|]. repeat apply conj.
  - rewrite review_code_eq. cbv zeta. now rewrite Hcoerce.
  - intros key H1 H2. now rewrite !assoc_get_set_other by congruence.
  - exact Hroute.
  - intros values Hv. unfold validate in Hv.
    destruct (validate_fields CodeResponse _) as [[|err errors] vals] eqn:Hf; [|discriminate].
    inversion Hv; subst vals. split.
    + exact (validate_fields_names _ _ _ Hf).
    + intros key v. exact (validate_fields_sound _ _ _ key v Hf).
  - intros name ty Hin Hnone. rewrite Hroute. unfold validate.
    pose proof (validate_fields_missing _ _ _ _ Hin Hnone) as Hne.
    destruct (validate_fields CodeResponse _) as [[|err errors] vals]; simpl in *;
      [congruence|reflexivity].
Qed.

Lemma review_reply_meets_response_model_witness :
  exists ai_data,
    ai_data = assoc_set (assoc_set [("original_score", JInt 80); ("refined_score", JInt 97)]
                           "original_score" (JInt 80))
                        "refined_score" (JInt 97)
    /\ review_code the_client (answering (Some scores_only_text))
         (decoding scores_only_text scores_only) review_request []
       = (Return (JDict ai_data), ([] ++ [EvCreate the_client (review_args review_request)])%list)
    /\ (forall key, key <> "original_score" -> key <> "refined_score" ->
          assoc_get ai_data key
          = assoc_get [("original_score", JInt 80); ("refined_score", JInt 97)] key)
    /\ fst (post_review the_client (answering (Some scores_only_text))
              (decoding scores_only_text scores_only) review_body [])
       = match validate CodeResponse (JDict ai_data) with
         | inr values => JSONResponse 200 (JDict values)
         | inl _ => InternalServerError
         end
    /\ (forall values, validate CodeResponse (JDict ai_data) = inr values ->
          map fst values = map fst CodeResponse
          /\ forall key v, assoc_get values key = Some v -> assoc_get ai_data key = Some v)
    /\ (forall name ty, In (name, ty) CodeResponse -> assoc_get ai_data name = None ->
          fst (post_review the_client (answering (Some scores_only_text))
                 (decoding scores_only_text scores_only) review_body [])
          = InternalServerError).
Proof.
  apply (review_reply_meets_response_model the_client (answering (Some scores_only_text))
           (decoding scores_only_text scores_only) review_body review_request []
           [("original_score", JInt 80); ("refined_score", JInt 97)] 80 97).
  - reflexivity.
  - vm_compute. reflexivity.
  - reflexivity.
  - reflexivity.
Defined.

(** C5 fails as stated: a reply without [bugs] passes the handler and is
    then refused by the route's response model, and the request fails
    with status 500. *)
Lemma review_reply_without_bugs_is_500 :
  review_code the_client (answering (Some scores_only_text))
    (decoding scores_only_text scores_only) review_request []
  = (Return scores_only, [EvCreate the_client (review_args review_request)])
  /\ member scores_only "bugs" = None
  /\ post_review the_client (answering (Some scores_only_text))
       (decoding scores_only_text scores_only) review_body []
     = (InternalServerError, [EvCreate the_client (review_args review_request)])
  /\ status InternalServerError = 500.
Proof.
  repeat split; vm_compute; reflexivity.
Qed.

(** ** The translate route *)

(** What the encoder keeps under a key it does not drop. *)
Lemma jsonable_encoder_member v key :
  sqlalchemy_key key = false ->
  member (jsonable_encoder v) key = option_map jsonable_encoder (member v key).
Proof.
  intros Hkey. destruct v as [| | | | | |d]; try reflexivity.
  cbn [jsonable_encoder member].
  induction d as [|[k v] d IH]; [reflexivity|].
  cbn [map List.filter fst assoc_get].
  destruct (String.eqb_spec k key) as [->|Hne].
  - rewrite Hkey. cbn [negb assoc_get]. now rewrite String.eqb_refl.
  - destruct (sqlalchemy_key k); cbn [negb assoc_get]; [exact IH|].
    destruct (String.eqb_spec k key); [contradiction|exact IH].
Qed.

Lemma post_translate_eq client create json_loads body request t :
  TranslateRequest.parse body = inr request ->
  post_translate client create json_loads body t =
  (match decoded_reply client create json_loads (translate_args request) with
   | Return v =>
       if json_compliant (jsonable_encoder v)
       then JSONResponse 200 (jsonable_encoder v)
       else InternalServerError
   | Raise e =>
       JSONResponse 200
         (JDict [("translated_code", JStr ("// Translation error: " +:+ exn_str e))])
   end,
   (t ++ [EvCreate client (translate_args request)])%list).
Proof.
  intros Hparse. unfold post_translate, respond. rewrite Hparse, translate_code_eq.
  unfold serialize.
  destruct (decoded_reply _ _ _ _) as [v|e]; [|reflexivity].
  now destruct (json_compliant (jsonable_encoder v)).
Qed.

(** C2, as amended.  On a valid translate request the handler returns
    whatever the service does.  If anything raises on the way to the
    decoded reply, the answer is 200 with the non-empty [translated_code]
    that embeds the message.  If the reply decodes to a value that can be
    rendered as JSON, the answer is 200 with that value as the framework
    encodes it, unchecked: its body holds a [translated_code] only if the
    reply does, and then the reply's own, whatever it is. *)
Theorem translate_answers_every_outcome client create json_loads body request t :
  TranslateRequest.parse body = inr request ->
  (exists v, translate_code client create json_loads request t
             = (Return v, (t ++ [EvCreate client (translate_args request)])%list))
  /\ (forall e,
        decoded_reply client create json_loads (translate_args request) = Raise e ->
        "// Translation error: " +:+ exn_str e <> ""
        /\ post_translate client create json_loads body t
           = (JSONResponse 200
                (JDict [("translated_code", JStr ("// Translation error: " +:+ exn_str e))]),
              (t ++ [EvCreate client (translate_args request)])%list))
  /\ (forall v,
        decoded_reply client create json_loads (translate_args request) = Return v ->
        json_compliant (jsonable_encoder v) = true ->
        post_translate client create json_loads body t
        = (JSONResponse 200 (jsonable_encoder v),
           (t ++ [EvCreate client (translate_args request)])%list)
        /\ member (jsonable_encoder v) "translated_code"
           = option_map jsonable_encoder (member v "translated_code")).
Proof.
  intros Hparse. repeat apply conj.
  - rewrite translate_code_eq. eauto.
  - intros e He. split; [discriminate|].
    now rewrite (post_translate_eq _ _ _ _ _ _ Hparse), He.
  - intros v Hv Hc. split.
    + now rewrite (post_translate_eq _ _ _ _ _ _ Hparse), Hv, Hc.
    + now apply jsonable_encoder_member.
Qed.

Lemma translate_answers_every_outcome_witness :
  TranslateRequest.parse translate_body = inr translate_request
  /\ decoded_reply the_client (answering (Some "{}")) (decoding "{}" (JDict []))
       (translate_args translate_request) = Return (JDict [])
  /\ (exists v, translate_code the_client (answering (Some "{}")) (decoding "{}" (JDict []))
                  translate_request []
                = (Return v, ([] ++ [EvCreate the_client (translate_args translate_request)])%list))
  /\ (forall e,
        decoded_reply the_client (answering (Some "{}")) (decoding "{}" (JDict []))
          (translate_args translate_request) = Raise e ->
        "// Translation error: " +:+ exn_str e <> ""
        /\ post_translate the_client (answering (Some "{}")) (decoding "{}" (JDict []))
             translate_body []
           = (JSONResponse 200
                (JDict [("translated_code", JStr ("// Translation error: " +:+ exn_str e))]),
              ([] ++ [EvCreate the_client (translate_args translate_request)])%list))
  /\ (forall v,
        decoded_reply the_client (answering (Some "{}")) (decoding "{}" (JDict []))
          (translate_args translate_request) = Return v ->
        json_compliant (jsonable_encoder v) = true ->
        post_translate the_client (answering (Some "{}")) (decoding "{}" (JDict []))
          translate_body []
        = (JSONResponse 200 (jsonable_encoder v),
           ([] ++ [EvCreate the_client (translate_args translate_request)])%list)
        /\ member (jsonable_encoder v) "translated_code"
           = option_map jsonable_encoder (member v "translated_code")).
Proof.
  split; [reflexivity|]. split; [reflexivity|].
  apply (translate_answers_every_outcome the_client (answering (Some "{}"))
           (decoding "{}" (JDict [])) translate_body translate_request []).
  reflexivity.
Defined.

(** C2 fails as stated: the reply [{}] is answered as it is, with status
    200 and no [translated_code] in the body. *)
Lemma translate_200_without_translated_code :
  post_translate the_client (answering (Some "{}")) (decoding "{}" (JDict []))
    translate_body []
  = (JSONResponse 200 (JDict []), [EvCreate the_client (translate_args translate_request)])
  /\ member (JDict []) "translated_code" = None.
Proof.
  split; [vm_compute; reflexivity|reflexivity].
Qed.

(** C4.  When the call or the decoding of its reply raises [e] in
    [translate_code], the handler does not raise: it returns, and the
    route answers 200 with, a [translated_code] that reads
    ["// Translation error: "] followed by [str(e)]. *)
Theorem translate_failure_is_absorbed client create json_loads body request t e :
  TranslateRequest.parse body = inr request ->
  create client (translate_args request) = Raise e
  \/ (exists response text,
        create client (translate_args request) = Return response /\
        first_content response = Return (Some text) /\
        json_loads text = Raise e)
  \/ (exists t1, translate_try client create json_loads request t = (Raise e, t1)) ->
  translate_code client create json_loads request t
  = (Return (JDict [("translated_code", JStr ("// Translation error: " +:+ exn_str e))]),
     (t ++ [EvCreate client (translate_args request)])%list)
  /\ post_translate client create json_loads body t
     = (JSONResponse 200
          (JDict [("translated_code", JStr ("// Translation error: " +:+ exn_str e))]),
        (t ++ [EvCreate client (translate_args request)])%list)
  /\ contains "Translation error:" ("// Translation error: " +:+ exn_str e) = true.
Proof.
  intros Hparse Hfail.
  assert (Hraise : decoded_reply client create json_loads (translate_args request) = Raise e).
  { destruct Hfail as [Hcall|[(response & text & Hcall & Hcontent & Hloads)|(t1 & Htry)]].
    - exact (decoded_call_raises _ _ _ _ _ Hcall).
    - exact (decoded_loads_raises _ _ _ _ _ _ _ Hcall Hcontent Hloads).
    - rewrite translate_try_eq in Htry. now inversion Htry. }
  rewrite (post_translate_eq _ _ _ _ _ _ Hparse), translate_code_eq, Hraise.
  repeat split.
Qed.

Lemma translate_failure_is_absorbed_witness :
  unreachable the_client (translate_args translate_request)
  = Raise (Exc "APIConnectionError" "Connection error.")
  /\ translate_code the_client unreachable (decoding "{}" (JDict [])) translate_request []
     = (Return (JDict [("translated_code", JStr "// Translation error: Connection error.")]),
        [EvCreate the_client (translate_args translate_request)])
  /\ post_translate the_client unreachable (decoding "{}" (JDict [])) translate_body []
     = (JSONResponse 200
          (JDict [("translated_code", JStr "// Translation error: Connection error.")]),
        [EvCreate the_client (translate_args translate_request)])
  /\ contains "Translation error:" "// Translation error: Connection error." = true.
Proof.
  split; [reflexivity|].
  apply (translate_failure_is_absorbed the_client unreachable (decoding "{}" (JDict []))
           translate_body translate_request []
           (Exc "APIConnectionError" "Connection error.")).
  - reflexivity.
  - left. reflexivity.
Defined.

(** ** Request validation *)

(** C6.  A body without [code] is refused by either route with a
    validation error (status 422) that names the field when the body is
    an object; the trace is left as it was, so nothing of the relay has
    run: no prompt was built into a call, and the service was not asked. *)
Theorem missing_code_is_rejected client create json_loads body t :
  member body "code" = None ->
  (exists errors,
     post_review client create json_loads body t = (UnprocessableEntity errors, t)
     /\ errors <> []
     /\ (forall d, body = JDict d -> In (Missing "code") errors)
     /\ status (UnprocessableEntity errors) = 422)
  /\ (exists errors,
        post_translate client create json_loads body t = (UnprocessableEntity errors, t)
        /\ errors <> []
        /\ (forall d, body = JDict d -> In (Missing "code") errors)
        /\ status (UnprocessableEntity errors) = 422).
Proof.
  intros Hmissing. unfold post_review, post_translate.
  assert (Hcode : forall d, body = JDict d -> str_field d "code" = inl (Missing "code")).
  { intros d ->. unfold str_field. simpl in Hmissing. now rewrite Hmissing. }
  destruct body as [| | | | | |d]; try (split; rejected).
  unfold CodeRequest.parse, TranslateRequest.parse. rewrite (Hcode d eq_refl).
  split; [rejected|].
  destruct (str_field d "target_language"); rejected.
Qed.

Lemma missing_code_is_rejected_witness :
  member (JDict [("target_language", JStr "Rust")]) "code" = None
  /\ (exists errors,
        post_review the_client unreachable (decoding "{}" (JDict []))
          (JDict [("target_language", JStr "Rust")]) []
        = (UnprocessableEntity errors, [])
        /\ errors <> []
        /\ (forall d, JDict [("target_language", JStr "Rust")] = JDict d ->
            In (Missing "code") errors)
        /\ status (UnprocessableEntity errors) = 422)
  /\ (exists errors,
        post_translate the_client unreachable (decoding "{}" (JDict []))
          (JDict [("target_language", JStr "Rust")]) []
        = (UnprocessableEntity errors, [])
        /\ errors <> []
        /\ (forall d, JDict [("target_language", JStr "Rust")] = JDict d ->
            In (Missing "code") errors)
        /\ status (UnprocessableEntity errors) = 422).
Proof.
  split; [reflexivity|].
  apply (missing_code_is_rejected the_client unreachable (decoding "{}" (JDict []))
           (JDict [("target_language", JStr "Rust")]) []).
  reflexivity.
Defined.

(** ** What is sent to the service *)

Lemma calls_app t1 t2 : calls (t1 ++ t2) = (calls t1 ++ calls t2)%list.
Proof. unfold calls. apply flat_map_app. Qed.


Lemma review_code_trace client create json_loads request t :
  exists printed,
    snd (review_code client create json_loads request t)
    = (t ++ EvCreate client (review_args request) :: map EvPrint printed)%list.
Proof.
  rewrite review_code_eq. cbv zeta. destruct (and_then _ _) as [v|e]; simpl.
  - now exists [].
  - exists ["Error: " +:+ exn_str e]. now rewrite <- app_assoc.
Qed.

Lemma calls_prints printed : calls (map EvPrint printed) = [].
Proof. induction printed; simpl; auto. Qed.


Lemma review_code_calls client create json_loads request t :
  calls (snd (review_code client create json_loads request t))
  = (calls t ++ [review_args request])%list.
Proof.
  destruct (review_code_trace client create json_loads request t) as (printed & ->).
  rewrite calls_app. simpl. now rewrite calls_prints.
Qed.

Lemma translate_code_calls client create json_loads request t :
  calls (snd (translate_code client create json_loads request t))
  = (calls t ++ [translate_args request])%list.
Proof. rewrite translate_code_eq. simpl. now rewrite calls_app. Qed.

(** C7.  Every run of [review_code] makes one call, with two messages:
    the system prompt, which is one fixed text, and the user message,
    which ends with the submitted code.  The prompt names five criteria
    weighing 30, 25, 15, 15 and 15 points, 100 in all; it asks for an
    optimized version scored 95 to 100, and for nothing but a JSON object
    with new lines and quotes escaped. *)
Theorem review_prompt_is_the_fixed_rubric client create json_loads request t :
  calls (snd (review_code client create json_loads request t))
  = (calls t ++ [review_args request])%list
  /\ messages (review_args request)
     = [ JDict [("role", JStr "system"); ("content", JStr review_system_prompt)];
         JDict [("role", JStr "user");
                ("content",
                 JStr ("Perform a rubric-based review of this code:" +:+ nl +:+ nl
                       +:+ CodeRequest.code request))] ]
  /\ rubric review_system_prompt
     = [ ("Logic & Correctness", 30);
         ("Time/Space Efficiency", 25);
         ("Security & Safety", 15);
         ("Readability & Standards", 15);
         ("Maintainability", 15) ]
  /\ fold_right Z.add 0 (map snd (rubric review_system_prompt)) = 100
  /\ contains "Calculate the 'refined_score' for YOUR optimized version (this should be 95-100)."
       review_system_prompt = true
  /\ contains "Return ONLY a valid JSON object." review_system_prompt = true
  /\ contains "Use '\n' for new lines and escape all quotes." review_system_prompt = true.
Proof.
  split; [apply review_code_calls|].
  split; [reflexivity|].
  repeat split; vm_compute; reflexivity.
Qed.

(** C8.  Each handler makes exactly one call per request, and whatever
    the request, the call names the model [llama-3.3-70b-versatile], the
    temperature 0.1 (the binary64 quotient of 1 by 10) and the response
    format [{"type": "json_object"}]. *)
Theorem every_call_has_the_fixed_parameters client create json_loads
    (review_request : CodeRequest.t) (translate_request : TranslateRequest.t) t :
  calls (snd (review_code client create json_loads review_request t))
  = (calls t ++ [review_args review_request])%list
  /\ calls (snd (translate_code client create json_loads translate_request t))
     = (calls t ++ [translate_args translate_request])%list
  /\ model (review_args review_request) = "llama-3.3-70b-versatile"
  /\ model (translate_args translate_request) = "llama-3.3-70b-versatile"
  /\ temperature (review_args review_request) = float_0_1
  /\ temperature (translate_args translate_request) = float_0_1
  /\ float_0_1 = SFdiv 53 1024 (binary_normalize 53 1024 1 0 false)
                               (binary_normalize 53 1024 10 0 false)
  /\ response_format (review_args review_request) = JDict [("type", JStr "json_object")]
  /\ response_format (translate_args translate_request)
     = JDict [("type", JStr "json_object")].
Proof.
  split; [apply review_code_calls|].
  split; [apply translate_code_calls|].
  repeat split; vm_compute; reflexivity.
Qed.

(** ** Start-up *)

Lemma respond_trace response_model (handler : M json) t :
  snd (respond response_model handler t) = snd (handler t).
Proof.
  unfold respond. now destruct (handler t) as [[v|[st d|cls msg]] t'].
Qed.



(** A key in the process environment, and no [.env] file. *)
Example startup_with_the_key_in_the_environment :
  init ∅ {[ "GROQ_API_KEY" := "gsk_example" ]} = Return the_client.
Proof. vm_compute. reflexivity. Qed.

(** A variable set to the empty string holds no key: loading raises as it
    does when the variable is not set. *)
Example startup_with_an_empty_variable :
  init ∅ {[ "GROQ_API_KEY" := "" ]}
  = Raise (Exc "ValueError" "CRITICAL: GROQ_API_KEY is not set in the .env file.")
  /\ init ∅ ∅
     = Raise (Exc "ValueError" "CRITICAL: GROQ_API_KEY is not set in the .env file.").
Proof. split; vm_compute; reflexivity. Qed.

(** * Further properties of the relay *)

(** ** One invocation per request *)

(** X3.  A handler invokes [client.chat.completions.create] once for a
    request whose body is accepted, and a refused request invokes it not
    at all: whatever that one invocation comes to, the handler does not
    invoke it again.  (What the client does within an invocation, its own
    retries among it, is the client's and is not counted here.) *)
Theorem one_call_per_accepted_request client create json_loads body t :
  calls (snd (post_review client create json_loads body t))
  = (calls t ++ match CodeRequest.parse body with
                | inr request => [review_args request]
                | inl _ => []
                end)%list
  /\ calls (snd (post_translate client create json_loads body t))
     = (calls t ++ match TranslateRequest.parse body with
                   | inr request => [translate_args request]
                   | inl _ => []
                   end)%list.
Proof.
  unfold post_review, post_translate. split.
  - destruct (CodeRequest.parse body) as [errors|request]; simpl.
    + now rewrite app_nil_r.
    + rewrite respond_trace. apply review_code_calls.
  - destruct (TranslateRequest.parse body) as [errors|request]; simpl.
    + now rewrite app_nil_r.
    + rewrite respond_trace. apply translate_code_calls.
Qed.

(** ** The statuses a caller can see *)

Lemma respond_status response_model (handler : M json) t :
  (forall e t', handler t = (Raise e, t') ->
                e = HTTPException 500 "Heuristic analysis engine failed.") ->
  status (fst (respond response_model handler t)) = 200
  \/ status (fst (respond response_model handler t)) = 500.
Proof.
  intros Hraise. unfold respond.
  destruct (handler t) as [[v|e] t'] eqn:Hh.
  - destruct (serialize response_model v); simpl; auto.
  - rewrite (Hraise e t' eq_refl). simpl. auto.
Qed.

(** X4.  Either route answers with status 200, 422 or 500 and no other,
    and with 422 exactly when it refuses the body. *)
Theorem routes_answer_200_422_or_500 client create json_loads body t :
  (status (fst (post_review client create json_loads body t)) = 422
   /\ (exists errors, CodeRequest.parse body = inl errors)
   \/ (status (fst (post_review client create json_loads body t)) = 200
       \/ status (fst (post_review client create json_loads body t)) = 500)
      /\ exists request, CodeRequest.parse body = inr request)
  /\ (status (fst (post_translate client create json_loads body t)) = 422
      /\ (exists errors, TranslateRequest.parse body = inl errors)
      \/ (status (fst (post_translate client create json_loads body t)) = 200
          \/ status (fst (post_translate client create json_loads body t)) = 500)
         /\ exists request, TranslateRequest.parse body = inr request).
Proof.
  unfold post_review, post_translate. split.
  - destruct (CodeRequest.parse body) as [errors|request]; [left; eauto|right].
    split; [|eauto]. apply respond_status.
    intros e t' H. rewrite review_code_eq in H. cbv zeta in H.
    destruct (and_then _ _); now inversion H.
  - destruct (TranslateRequest.parse body) as [errors|request]; [left; eauto|right].
    split; [|eauto]. apply respond_status.
    intros e t' H. rewrite translate_code_eq in H. discriminate.
Qed.

(** ** What reaches the server's output *)

Lemma printed_app t1 t2 : printed (t1 ++ t2) = (printed t1 ++ printed t2)%list.
Proof. unfold printed. apply flat_map_app. Qed.

(** X5.  The review route prints on the server exactly when the [try]
    block raised: nothing for a request it refuses or whose reply it
    returns, and the one line ["Error: "] followed by the message of the
    exception met when it answers with its fixed detail. *)
Theorem review_prints_exactly_its_failures client create json_loads body t :
  match CodeRequest.parse body with
  | inl _ => printed (snd (post_review client create json_loads body t)) = printed t
  | inr request =>
      match review_try client create json_loads request t with
      | (Return _, _) =>
          printed (snd (post_review client create json_loads body t)) = printed t
      | (Raise e, _) =>
          printed (snd (post_review client create json_loads body t))
          = (printed t ++ ["Error: " +:+ exn_str e])%list
          /\ fst (post_review client create json_loads body t)
             = JSONResponse 500 (JDict [("detail", JStr "Heuristic analysis engine failed.")])
      end
  end.
Proof.
  destruct (CodeRequest.parse body) as [errors|request] eqn:Hparse.
  - unfold post_review. now rewrite Hparse.
  - rewrite (post_review_eq _ _ _ _ _ _ Hparse), review_try_eq. cbv zeta.
    destruct (and_then _ _) as [ai_data|e]; simpl.
    + rewrite printed_app. simpl. now rewrite app_nil_r.
    + rewrite !printed_app. simpl. now rewrite app_nil_r.
Qed.

(** X6.  The translate route prints nothing, whatever happens: the
    exception it absorbs into [translated_code] leaves no line on the
    server. *)
Theorem translate_prints_nothing client create json_loads body t :
  printed (snd (post_translate client create json_loads body t)) = printed t.
Proof.
  unfold post_translate.
  destruct (TranslateRequest.parse body) as [errors|request]; [reflexivity|].
  rewrite respond_trace, translate_code_eq. simpl.
  rewrite printed_app. simpl. now rewrite app_nil_r.
Qed.

(** ** The two coercions *)

Lemma assoc_set_same_value (d : list (string * json)) k v :
  assoc_get d k = Some v -> assoc_set d k v = d.
Proof.
  induction d as [|[k' v'] d IH]; simpl; [discriminate|].
  destruct (String.eqb k' k); intros H.
  - now inversion H.
  - now rewrite IH.
Qed.

Lemma keys_assoc_set (d : list (string * json)) k v :
  map fst (assoc_set d k v)
  = (map fst d ++ match assoc_get d k with Some _ => [] | None => [k] end)%list.
Proof.
  induction d as [|[k' v'] d IH]; simpl; [reflexivity|].
  destruct (String.eqb k' k); simpl.
  - now rewrite app_nil_r.
  - now rewrite IH.
Qed.

(** The scores of a coerced reply are the integers it was given. *)
Lemma score_of_coerced d original refined :
  score (assoc_set (assoc_set d "original_score" (JInt original))
                   "refined_score" (JInt refined)) "original_score" = Return original
  /\ score (assoc_set (assoc_set d "original_score" (JInt original))
                      "refined_score" (JInt refined)) "refined_score" = Return refined.
Proof.
  unfold score. split.
  - rewrite assoc_get_set_other, assoc_get_set_same by discriminate. reflexivity.
  - now rewrite assoc_get_set_same.
Qed.

(** X7.  The two coercions are idempotent: applied to what they returned,
    they return it again, unchanged. *)
Theorem coerce_scores_is_idempotent ai_data coerced :
  coerce_scores ai_data = Return coerced ->
  coerce_scores coerced = Return coerced.
Proof.
  destruct ai_data as [| | | | | |d]; try discriminate.
  rewrite coerce_scores_dict.
  destruct (score d "original_score") as [original|e]; simpl; [|discriminate].
  destruct (score d "refined_score") as [refined|e]; simpl; [|discriminate].
  intros H. inversion H; subst coerced; clear H.
  rewrite coerce_scores_dict.
  destruct (score_of_coerced d original refined) as [-> ->]. simpl.
  rewrite (assoc_set_same_value _ "original_score" (JInt original)).
  - rewrite (assoc_set_same_value _ "refined_score" (JInt refined)); [reflexivity|].
    apply assoc_get_set_same.
  - rewrite assoc_get_set_other by discriminate. apply assoc_get_set_same.
Qed.

Lemma coerce_scores_is_idempotent_witness :
  coerce_scores (JDict [("bugs", JStr "none"); ("original_score", JStr " 41 ")])
  = Return (JDict [("bugs", JStr "none"); ("original_score", JInt 41);
                   ("refined_score", JInt 0)])
  /\ coerce_scores (JDict [("bugs", JStr "none"); ("original_score", JInt 41);
                           ("refined_score", JInt 0)])
     = Return (JDict [("bugs", JStr "none"); ("original_score", JInt 41);
                      ("refined_score", JInt 0)]).
Proof.
  split; [reflexivity|].
  apply (coerce_scores_is_idempotent
           (JDict [("bugs", JStr "none"); ("original_score", JStr " 41 ")])).
  reflexivity.
Defined.

(** X8.  The coercions remove no entry and reorder none: the keys of the
    returned object are those of the reply, in its order, followed by
    [original_score] and [refined_score] where the reply had none. *)
Theorem coerce_scores_keeps_the_keys d coerced :
  coerce_scores (JDict d) = Return (JDict coerced) ->
  map fst coerced
  = (map fst d
     ++ match assoc_get d "original_score" with Some _ => [] | None => ["original_score"] end
     ++ match assoc_get d "refined_score" with Some _ => [] | None => ["refined_score"] end)%list.
Proof.
  rewrite coerce_scores_dict.
  destruct (score d "original_score") as [original|e]; simpl; [|discriminate].
  destruct (score d "refined_score") as [refined|e]; simpl; [|discriminate].
  intros H. inversion H; subst coerced; clear H.
  rewrite !keys_assoc_set, assoc_get_set_other by discriminate.
  now rewrite <- app_assoc.
Qed.

Lemma coerce_scores_keeps_the_keys_witness :
  coerce_scores (JDict [("bugs", JStr "none"); ("original_score", JStr " 41 ")])
  = Return (JDict [("bugs", JStr "none"); ("original_score", JInt 41);
                   ("refined_score", JInt 0)])
  /\ map fst [("bugs", JStr "none"); ("original_score", JInt 41); ("refined_score", JInt 0)]
     = (map fst [("bugs", JStr "none"); ("original_score", JStr " 41 ")]
        ++ match assoc_get [("bugs", JStr "none"); ("original_score", JStr " 41 ")]
                   "original_score" with
           | Some _ => []
           | None => ["original_score"]
           end
        ++ match assoc_get [("bugs", JStr "none"); ("original_score", JStr " 41 ")]
                   "refined_score" with
           | Some _ => []
           | None => ["refined_score"]
           end)%list.
Proof.
  split; [reflexivity|].
  apply (coerce_scores_keeps_the_keys
           [("bugs", JStr "none"); ("original_score", JStr " 41 ")]).
  reflexivity.
Defined.

(** ** The response model at work *)

(** Validation looks at the declared fields and at nothing else. *)
Lemma validate_fields_ext fields d1 d2 :
  (forall name ty, In (name, ty) fields -> assoc_get d1 name = assoc_get d2 name) ->
  validate_fields fields d1 = validate_fields fields d2.
Proof.
  induction fields as [|[name ty] fields IH]; simpl; intros H; [reflexivity|].
  rewrite IH by (intros; eapply H; eauto).
  now rewrite (H name ty) by auto.
Qed.

(** What a 200 of the review route rests on. *)
Lemma post_review_200_inv client create json_loads body t content t' :
  post_review client create json_loads body t = (JSONResponse 200 content, t') ->
  exists request reply original refined values,
    CodeRequest.parse body = inr request
    /\ decoded_reply client create json_loads (review_args request) = Return (JDict reply)
    /\ score reply "original_score" = Return original
    /\ score reply "refined_score" = Return refined
    /\ validate_fields CodeResponse
         (assoc_set (assoc_set reply "original_score" (JInt original))
                    "refined_score" (JInt refined)) = ([], values)
    /\ content = JDict values.
Proof.
  intros H.
  destruct (CodeRequest.parse body) as [errors|request] eqn:Hparse.
  { unfold post_review in H. rewrite Hparse in H. discriminate. }
  rewrite (post_review_eq _ _ _ _ _ _ Hparse) in H. cbv zeta in H.
  destruct (decoded_reply client create json_loads (review_args request))
    as [ai_data|e] eqn:Hreply; simpl in H; [|discriminate].
  destruct ai_data as [| | | | | |reply]; try discriminate.
  rewrite coerce_scores_dict in H.
  destruct (score reply "original_score") as [original|e] eqn:Ho; simpl in H; [|discriminate].
  destruct (score reply "refined_score") as [refined|e] eqn:Hr; simpl in H; [|discriminate].
  rewrite serialize_model in H. unfold validate in H.
  destruct (validate_fields CodeResponse _) as [[|err errors] values] eqn:Hv;
    [|discriminate].
  inversion H; subst content t'; clear H.
  exists request, reply, original, refined, values. repeat split; auto.
Qed.

(** X9.  A review answered with status 200 carries the nine fields of
    [CodeResponse], in the order of their declaration and no other, each
    with a value of its declared type: an [int] for the two scores, a
    list of [str] for [improvements], a [str] for the rest. *)
Theorem review_200_has_every_declared_field client create json_loads body t content t' :
  post_review client create json_loads body t = (JSONResponse 200 content, t') ->
  (exists values, content = JDict values /\ map fst values = map fst CodeResponse)
  /\ (forall name ty, In (name, ty) CodeResponse ->
        exists v, member content name = Some v /\ validate_value ty v = true)
  /\ json_compliant content = true.
Proof.
  intros H.
  destruct (post_review_200_inv _ _ _ _ _ _ _ H)
    as (request & reply & original & refined & values & _ & _ & _ & _ & Hv & ->).
  repeat apply conj.
  - exists values. split; [reflexivity|]. exact (validate_fields_names _ _ _ Hv).
  - intros name ty Hin.
    destruct (validate_fields_complete _ _ _ _ _ Hv Hin) as (v & _ & Hty & Hget).
    exists v. auto.
  - pose proof (validate_fields_compliant CodeResponse
                  (assoc_set (assoc_set reply "original_score" (JInt original))
                             "refined_score" (JInt refined))) as Hc.
    rewrite Hv in Hc. exact Hc.
Qed.

Lemma review_200_has_every_declared_field_witness :
  post_review the_client (answering (Some reply_150_text))
    (decoding reply_150_text reply_150) review_body []
  = (JSONResponse 200 answer_150, [EvCreate the_client (review_args review_request)])
  /\ (exists values, answer_150 = JDict values /\ map fst values = map fst CodeResponse)
  /\ (forall name ty, In (name, ty) CodeResponse ->
        exists v, member answer_150 name = Some v /\ validate_value ty v = true)
  /\ json_compliant answer_150 = true.
Proof.
  assert (H : post_review the_client (answering (Some reply_150_text))
                (decoding reply_150_text reply_150) review_body []
              = (JSONResponse 200 answer_150,
                 [EvCreate the_client (review_args review_request)]))
    by (vm_compute; reflexivity).
  split; [exact H|].
  exact (review_200_has_every_declared_field _ _ _ _ _ _ _ H).
Defined.

(** X10.  A reply that gives both scores as integers goes through the
    coercions unchanged: the handler returns the reply itself, and the
    route answers what the response model makes of the reply as it was
    sent. *)
Theorem integer_scores_are_left_as_sent
    client create json_loads body request t reply original refined :
  CodeRequest.parse body = inr request ->
  decoded_reply client create json_loads (review_args request) = Return (JDict reply) ->
  assoc_get reply "original_score" = Some (JInt original) ->
  assoc_get reply "refined_score" = Some (JInt refined) ->
  review_code client create json_loads request t
  = (Return (JDict reply), (t ++ [EvCreate client (review_args request)])%list)
  /\ post_review client create json_loads body t
     = (match validate CodeResponse (JDict reply) with
        | inr values => JSONResponse 200 (JDict values)
        | inl _ => InternalServerError
        end,
        (t ++ [EvCreate client (review_args request)])%list).
Proof.
  intros Hparse Hreply Ho Hr.
  assert (Hcoerce : coerce_scores (JDict reply) = Return (JDict reply)).
  { rewrite coerce_scores_dict. unfold score. rewrite Ho, Hr. simpl.
    rewrite (assoc_set_same_value _ _ _ Ho).
    now rewrite (assoc_set_same_value _ _ _ Hr). }
  split.
  - rewrite review_code_eq. cbv zeta. rewrite Hreply. simpl and_then.
    now rewrite Hcoerce.
  - rewrite (post_review_eq _ _ _ _ _ _ Hparse). cbv zeta.
    rewrite Hreply. simpl and_then. rewrite Hcoerce, serialize_model.
    now destruct (validate CodeResponse (JDict reply)).
Qed.

Lemma integer_scores_are_left_as_sent_witness :
  review_code the_client (answering (Some full_reply_text))
    (decoding full_reply_text (JDict full_fields)) review_request []
  = (Return (JDict full_fields),
     ([] ++ [EvCreate the_client (review_args review_request)])%list)
  /\ post_review the_client (answering (Some full_reply_text))
       (decoding full_reply_text (JDict full_fields)) review_body []
     = (match validate CodeResponse (JDict full_fields) with
        | inr values => JSONResponse 200 (JDict values)
        | inl _ => InternalServerError
        end,
        ([] ++ [EvCreate the_client (review_args review_request)])%list).
Proof.
  apply (integer_scores_are_left_as_sent the_client (answering (Some full_reply_text))
           (decoding full_reply_text (JDict full_fields)) review_body review_request []
           full_fields 72 98).
  - reflexivity.
  - vm_compute. reflexivity.
  - reflexivity.
  - reflexivity.
Defined.

(** X11.  What the review route answers depends on the reply through
    its nine declared fields alone: two replies that agree on them are
    answered alike, whatever else they hold. *)
Theorem review_ignores_undeclared_fields
    client create1 json_loads1 create2 json_loads2 body request t reply1 reply2 :
  CodeRequest.parse body = inr request ->
  decoded_reply client create1 json_loads1 (review_args request) = Return (JDict reply1) ->
  decoded_reply client create2 json_loads2 (review_args request) = Return (JDict reply2) ->
  (forall name ty, In (name, ty) CodeResponse ->
     assoc_get reply1 name = assoc_get reply2 name) ->
  post_review client create1 json_loads1 body t
  = post_review client create2 json_loads2 body t.
Proof.
  intros Hparse H1 H2 Hagree.
  rewrite !(post_review_eq _ _ _ _ _ _ Hparse). cbv zeta.
  rewrite H1, H2. simpl. rewrite !coerce_scores_dict.
  assert (Ho : score reply1 "original_score" = score reply2 "original_score").
  { unfold score. rewrite (Hagree "original_score" TInt); [reflexivity|simpl; auto]. }
  assert (Hr : score reply1 "refined_score" = score reply2 "refined_score").
  { unfold score. rewrite (Hagree "refined_score" TInt); [reflexivity|simpl; auto]. }
  rewrite Ho, Hr.
  destruct (score reply2 "original_score") as [original|e]; simpl; [|reflexivity].
  destruct (score reply2 "refined_score") as [refined|e]; simpl; [|reflexivity].
  rewrite !serialize_model. unfold validate.
  rewrite (validate_fields_ext CodeResponse
             (assoc_set (assoc_set reply1 "original_score" (JInt original))
                        "refined_score" (JInt refined))
             (assoc_set (assoc_set reply2 "original_score" (JInt original))
                        "refined_score" (JInt refined))); [reflexivity|].
  intros name ty Hin.
  destruct (String.eqb_spec "refined_score" name) as [<-|Hn1].
  { now rewrite !assoc_get_set_same. }
  rewrite !(assoc_get_set_other _ "refined_score" name) by assumption.
  destruct (String.eqb_spec "original_score" name) as [<-|Hn2].
  { now rewrite !assoc_get_set_same. }
  rewrite !(assoc_get_set_other _ "original_score" name) by assumption.
  exact (Hagree name ty Hin).
Qed.

Lemma review_ignores_undeclared_fields_witness :
  assoc_get full_fields "confidence" = Some (JStr "high")
  /\ assoc_get plain_fields "confidence" = None
  /\ post_review the_client (answering (Some full_reply_text))
       (decoding full_reply_text (JDict full_fields)) review_body []
     = post_review the_client (answering (Some plain_reply_text))
         (decoding plain_reply_text (JDict plain_fields)) review_body [].
Proof.
  split; [reflexivity|]. split; [reflexivity|].
  apply (review_ignores_undeclared_fields the_client
           (answering (Some full_reply_text)) (decoding full_reply_text (JDict full_fields))
           (answering (Some plain_reply_text)) (decoding plain_reply_text (JDict plain_fields))
           review_body review_request [] full_fields plain_fields).
  - reflexivity.
  - vm_compute. reflexivity.
  - vm_compute. reflexivity.
  - intros name ty Hin. simpl in Hin.
    repeat (destruct Hin as [Heq|Hin]; [inversion Heq; reflexivity|]).
    contradiction.
Defined.

(** ** Prompts *)

Lemma append_cancel_l (p a b : string) : p +:+ a = p +:+ b -> a = b.
Proof. induction p as [|c p IH]; simpl; intros H; [exact H|]. inversion H. auto. Qed.

Lemma string_length_append (a b : string) :
  String.length (a +:+ b) = (String.length a + String.length b)%nat.
Proof. induction a as [|c a IH]; simpl; [reflexivity|]. now rewrite IH. Qed.

Lemma append_cancel_r (s a b : string) : a +:+ s = b +:+ s -> a = b.
Proof.
  revert b. induction a as [|c a IH]; intros [|c' b] H.
  - reflexivity.
  - apply (f_equal String.length) in H.
    rewrite !string_length_append in H. simpl in H. lia.
  - apply (f_equal String.length) in H.
    rewrite !string_length_append in H. simpl in H. lia.
  - change (String c (a +:+ s) = String c' (b +:+ s)) in H.
    inversion H. f_equal. auto.
Qed.

Lemma string_append_assoc (a b c : string) : (a +:+ b) +:+ c = a +:+ b +:+ c.
Proof.
  induction a as [|x a IH]; [reflexivity|].
  change (String x ((a +:+ b) +:+ c) = String x (a +:+ b +:+ c)). now rewrite IH.
Qed.

Lemma prefix_append (n b : string) : String.prefix n (n +:+ b) = true.
Proof.
  induction n as [|c n IH]; simpl; [now destruct b|].
  destruct (ascii_dec c c); [exact IH|congruence].
Qed.

Lemma contains_at_the_start (needle b : string) : contains needle (needle +:+ b) = true.
Proof.
  unfold contains. destruct needle as [|c n].
  - simpl. now destruct b.
  - change (String c n +:+ b) with (String c (n +:+ b)).
    cbn [String.index].
    change (String c (n +:+ b)) with (String c n +:+ b).
    now rewrite prefix_append.
Qed.

Lemma contains_after (a needle text : string) :
  contains needle text = true -> contains needle (a +:+ text) = true.
Proof.
  unfold contains. intros H. induction a as [|c a IH]; [exact H|].
  change (String c a +:+ text) with (String c (a +:+ text)).
  cbn [String.index].
  destruct (String.prefix needle (String c (a +:+ text))); [reflexivity|].
  now destruct (String.index 0 needle (a +:+ text)).
Qed.

(** X12.  The call a handler makes determines the request it serves:
    the submitted code, and for a translation the target language, can be
    read back from the messages, so that two requests that differ never
    give the same call. *)
Theorem calls_determine_the_request
    (r1 r2 : CodeRequest.t) (q1 q2 : TranslateRequest.t) :
  (review_args r1 = review_args r2 -> r1 = r2)
  /\ (translate_args q1 = translate_args q2 -> q1 = q2).
Proof.
  split; intros H.
  - destruct r1 as [c1], r2 as [c2]. unfold review_args, chat_message in H.
    injection H as H. now f_equal.
  - destruct q1 as [c1 l1], q2 as [c2 l2].
    unfold translate_args, chat_message, translate_system_prompt in H.
    cbn [TranslateRequest.code TranslateRequest.target_language] in H.
    injection H as Hsystem Huser. subst c2. f_equal.
    apply append_cancel_l in Hsystem. now apply append_cancel_r in Hsystem.
Qed.

Lemma calls_determine_the_request_witness :
  review_request = review_request /\ translate_request = translate_request.
Proof.
  split.
  - exact (proj1 (calls_determine_the_request review_request review_request
                    translate_request translate_request) eq_refl).
  - exact (proj2 (calls_determine_the_request review_request review_request
                    translate_request translate_request) eq_refl).
Defined.

(** X13.  Whatever the target language, the system prompt of a
    translation names it and still asks for nothing but a JSON object
    with a [translated_code] string, new lines and double quotes escaped,
    and no markdown; the user message is the submitted code and nothing
    else. *)
Theorem translate_prompt_names_the_language (request : TranslateRequest.t) :
  messages (translate_args request)
  = [ JDict [("role", JStr "system");
             ("content",
              JStr (translate_system_prompt (TranslateRequest.target_language request)))];
      JDict [("role", JStr "user"); ("content", JStr (TranslateRequest.code request))] ]
  /\ contains ("Translate this code to " +:+ TranslateRequest.target_language request +:+ ".")
       (translate_system_prompt (TranslateRequest.target_language request)) = true
  /\ contains ("Return ONLY JSON: {" +:+ dq +:+ "translated_code" +:+ dq +:+ ": "
               +:+ dq +:+ "string" +:+ dq +:+ "}")
       (translate_system_prompt (TranslateRequest.target_language request)) = true
  /\ contains "Use '\n' and escape double quotes. No markdown tags."
       (translate_system_prompt (TranslateRequest.target_language request)) = true.
Proof.
  destruct request as [c l]. cbn [TranslateRequest.code TranslateRequest.target_language].
  split; [reflexivity|]. unfold translate_system_prompt. repeat apply conj.
  - change (contains ("Translate this code to " +:+ l +:+ ".")
              ("You are a polyglot expert. "
               +:+ "Translate this code to " +:+ l +:+ "." +:+ nl
               +:+ "Rules: Return ONLY JSON: {" +:+ dq +:+ "translated_code" +:+ dq +:+ ": "
               +:+ dq +:+ "string" +:+ dq +:+ "}. "
               +:+ "Use '\n' and escape double quotes. No markdown tags.") = true).
    apply contains_after.
    pose (rest := nl +:+ "Rules: Return ONLY JSON: {" +:+ dq +:+ "translated_code" +:+ dq
                  +:+ ": " +:+ dq +:+ "string" +:+ dq +:+ "}. "
                  +:+ "Use '\n' and escape double quotes. No markdown tags.").
    pose proof (contains_at_the_start ("Translate this code to " +:+ l +:+ ".") rest) as H.
    rewrite (string_append_assoc "Translate this code to " (l +:+ ".") rest) in H.
    rewrite (string_append_assoc l "." rest) in H.
    exact H.
  - apply contains_after, contains_after. vm_compute. reflexivity.
  - apply contains_after, contains_after. vm_compute. reflexivity.
Qed.

(** ** Where the key comes from *)

(** X14.  The process environment takes precedence over the [.env]
    file: a key set there decides alone, so that a non-empty one is the
    client's key whatever the file says and an empty one stops the module
    from loading even when the file holds a key; the file is consulted
    only when the process environment has no such variable. *)
Theorem process_environment_takes_precedence (dotenv environ : gmap string string) :
  match environ !! "GROQ_API_KEY" with
  | Some key =>
      init dotenv environ
      = if String.eqb key ""
        then Raise (Exc "ValueError" "CRITICAL: GROQ_API_KEY is not set in the .env file.")
        else Return {| api_key := key |}
  | None => init dotenv environ = init dotenv ∅
  end.
Proof.
  unfold init, getenv, load_dotenv.
  destruct (environ !! "GROQ_API_KEY") as [key|] eqn:Hkey.
  - now rewrite (lookup_union_Some_l environ dotenv _ _ Hkey).
  - rewrite (lookup_union_r environ dotenv _ Hkey).
    now rewrite (lookup_union_r ∅ dotenv "GROQ_API_KEY" (lookup_empty _)).
Qed.

(** ** Scores that are no integers *)

(** X15.  A score the reply gives as a finite fractional number is
    truncated towards zero, not rounded: for the number [m * 2^e], of
    either sign, the integer relayed has the same sign and the magnitude
    [n] with [n <= m * 2^e < n + 1]. *)
Theorem float_score_is_truncated d key (s : bool) (m : positive) (e : Z) :
  assoc_get d key = Some (JFloat (S754_finite s m e)) ->
  exists n,
    score d key = Return (if s then - n else n)
    /\ 0 <= n
    /\ n * 2 ^ Z.max 0 (- e) <= Z.pos m * 2 ^ Z.max 0 e < (n + 1) * 2 ^ Z.max 0 (- e).
Proof.
  intros Hget. exists (Z.shiftl (Z.pos m) e).
  unfold score. rewrite Hget. simpl int. split; [reflexivity|].
  destruct (Z.le_gt_cases 0 e) as [He|He].
  - rewrite Z.shiftl_mul_pow2 by assumption.
    rewrite (Z.max_r 0 e), (Z.max_l 0 (- e)) by lia.
    assert (0 < 2 ^ e) by (apply Z.pow_pos_nonneg; lia). split; nia.
  - rewrite Z.shiftl_div_pow2 by lia.
    rewrite (Z.max_l 0 e), (Z.max_r 0 (- e)) by lia.
    assert (Hp : 0 < 2 ^ (- e)) by (apply Z.pow_pos_nonneg; lia).
    pose proof (Z.div_mod (Z.pos m) (2 ^ (- e)) ltac:(lia)) as Hdm.
    pose proof (Z.mod_pos_bound (Z.pos m) (2 ^ (- e)) Hp) as Hb.
    assert (0 <= Z.pos m / 2 ^ (- e)) by (apply Z.div_pos; lia).
    split; [assumption|]. rewrite Z.pow_0_r. nia.
Qed.

Lemma float_score_is_truncated_witness :
  assoc_get [("original_score", JFloat (S754_finite true 8782019273372467 (-51)))]
    "original_score"
  = Some (JFloat (S754_finite true 8782019273372467 (-51)))
  /\ exists n,
       score [("original_score", JFloat (S754_finite true 8782019273372467 (-51)))]
         "original_score"
       = Return (if true then - n else n)
       /\ 0 <= n
       /\ n * 2 ^ Z.max 0 (- -51) <= 8782019273372467 * 2 ^ Z.max 0 (-51)
          < (n + 1) * 2 ^ Z.max 0 (- -51).
Proof.
  split; [reflexivity|].
  apply (float_score_is_truncated
           [("original_score", JFloat (S754_finite true 8782019273372467 (-51)))]
           "original_score" true 8782019273372467 (-51)).
  reflexivity.
Defined.

Lemma digit_char_is_digit d :
  0 <= d <= 9 -> is_digit (digit_char d) = true /\ ord (digit_char d) - 48 = d.
Proof.
  intros H.
  assert (Hd : d = 0 \/ d = 1 \/ d = 2 \/ d = 3 \/ d = 4 \/ d = 5 \/ d = 6
               \/ d = 7 \/ d = 8 \/ d = 9) by lia.
  repeat (destruct Hd as [->|Hd]; [split; reflexivity|]). subst. split; reflexivity.
Qed.

Lemma scan_digits_numeral ds acc n :
  Forall (fun d => 0 <= d <= 9) ds ->
  scan_digits (numeral ds) false acc n
  = Some (fold_left (fun a d => 10 * a + d) ds acc, n + Z.of_nat (List.length ds), EmptyString).
Proof.
  intros H. revert acc n. induction H as [|d ds Hd _ IH]; intros acc n.
  - simpl. now rewrite Z.add_0_r.
  - cbn [numeral scan_digits fold_left].
    destruct (digit_char_is_digit d Hd) as [-> ->].
    rewrite IH.
    replace (n + 1 + Z.of_nat (List.length ds))
      with (n + Z.of_nat (List.length (d :: ds))) by (simpl List.length; lia).
    reflexivity.
Qed.

(** X16.  A score the reply gives in quotes is accepted: a string of
    decimal digits, at least one and at most 4300, is relayed as the
    number it writes. *)
Theorem digit_string_score_is_read d key ds :
  assoc_get d key = Some (JStr (numeral ds)) ->
  ds <> [] ->
  Forall (fun x => 0 <= x <= 9) ds ->
  (List.length ds <= 4300)%nat ->
  score d key = Return (numeral_value ds).
Proof.
  intros Hget Hne Hds Hlen. unfold score. rewrite Hget.
  destruct ds as [|x ds]; [congruence|].
  inversion Hds as [|? ? Hx Hrest]; subst.
  unfold numeral_value. cbn [int numeral fold_left].
  assert (Hscan : scan_digits (String (digit_char x) (numeral ds)) false 0 0
                  = Some (fold_left (fun a d => 10 * a + d) ds (10 * 0 + x),
                          1 + Z.of_nat (List.length ds), EmptyString)).
  { cbn [scan_digits]. destruct (digit_char_is_digit x Hx) as [-> ->].
    rewrite (scan_digits_numeral ds _ _ Hrest). reflexivity. }
  assert (Hx' : x = 0 \/ x = 1 \/ x = 2 \/ x = 3 \/ x = 4 \/ x = 5 \/ x = 6
                \/ x = 7 \/ x = 8 \/ x = 9) by lia.
  assert (Hint : int_of_str (String (digit_char x) (numeral ds))
                 = match scan_digits (String (digit_char x) (numeral ds)) false 0 0 with
                   | Some (value, digits, rest) =>
                       if max_str_digits <? digits then
                         Raise (Exc "ValueError"
                                  ("Exceeds the limit (" +:+ string_of_Z max_str_digits
                                   +:+ " digits) for integer string conversion: value has "
                                   +:+ string_of_Z digits
                                   +:+ " digits; use sys.set_int_max_str_digits() to increase the limit"))
                       else if digits =? 0
                            then Raise (invalid_literal (String (digit_char x) (numeral ds)))
                            else match lstrip rest with
                                 | EmptyString => Return value
                                 | _ => Raise (invalid_literal
                                                 (String (digit_char x) (numeral ds)))
                                 end
                   | None => Raise (invalid_literal (String (digit_char x) (numeral ds)))
                   end).
  { repeat (destruct Hx' as [->|Hx']; [reflexivity|]). subst. reflexivity. }
  rewrite Hint, Hscan. simpl List.length in Hlen.
  unfold max_str_digits.
  destruct (Z.ltb_spec 4300 (1 + Z.of_nat (List.length ds))) as [Hgt|_]; [lia|].
  destruct (Z.eqb_spec (1 + Z.of_nat (List.length ds)) 0) as [Hz|_]; [lia|].
  reflexivity.
Qed.

Lemma digit_string_score_is_read_witness :
  numeral [8; 5] = "85"
  /\ score [("original_score", JStr "85")] "original_score" = Return (numeral_value [8; 5]).
Proof.
  split; [reflexivity|].
  apply (digit_string_score_is_read [("original_score", JStr "85")] "original_score" [8; 5]).
  - reflexivity.
  - discriminate.
  - repeat constructor; lia.
  - simpl. lia.
Defined.

(** X17.  A reply that is valid JSON but no object (an array, a string,
    a number, [null]) fails the review: [get] raises [AttributeError]
    inside the [try] block, the server prints it, and the route answers
    500 with the fixed detail. *)
Theorem review_of_a_reply_that_is_no_object client create json_loads body request t v :
  CodeRequest.parse body = inr request ->
  decoded_reply client create json_loads (review_args request) = Return v ->
  (forall d, v <> JDict d) ->
  post_review client create json_loads body t
  = (JSONResponse 500 (JDict [("detail", JStr "Heuristic analysis engine failed.")]),
     (t ++ [EvCreate client (review_args request);
            EvPrint ("Error: '" +:+ type_name v +:+ "' object has no attribute 'get'")])%list).
Proof.
  intros Hparse Hreply Hv.
  rewrite (post_review_eq _ _ _ _ _ _ Hparse). cbv zeta. rewrite Hreply.
  destruct v as [| | | | | |d]; [..|now destruct (Hv d)];
    cbn [and_then coerce_scores get]; rewrite <- app_assoc; reflexivity.
Qed.

Lemma review_of_a_reply_that_is_no_object_witness :
  post_review the_client (answering (Some "[]")) (decoding "[]" (JList [])) review_body []
  = (JSONResponse 500 (JDict [("detail", JStr "Heuristic analysis engine failed.")]),
     ([] ++ [EvCreate the_client (review_args review_request);
             EvPrint ("Error: '" +:+ type_name (JList [])
                      +:+ "' object has no attribute 'get'")])%list).
Proof.
  apply (review_of_a_reply_that_is_no_object the_client (answering (Some "[]"))
           (decoding "[]" (JList [])) review_body review_request [] (JList [])).
  - reflexivity.
  - reflexivity.
  - discriminate.
Defined.
